(** * Authentication core of "Learn by Doing v1" (backend/app)

    A shallow embedding of the password policy ([password_validator.py]),
    the JWT manager ([security/jwt_manager.py]), the access guard
    ([security/dependencies.py]), the account helpers ([db.py]) and the
    authentication / approval / password-reset endpoints
    ([routers/auth.py], [routers/users.py]).

    Conventions:
    - a Python [dict] is an association list [list (string * pyval)];
      [.get] returns the first binding or [None], assignment replaces an
      existing key in place and appends a new one;
    - [datetime.utcnow()] is an explicit argument [now : Z] (seconds);
    - a database session is the ordered list of [User] rows, and
      [query(...).filter(...).first()] is [find] on that list;
    - an endpoint returns [Ok v] or [HTTPError status detail];
    - strings are ASCII strings. *)

From Stdlib Require Import String Ascii ZArith List Bool Lia DecimalString Sorted.
Import ListNotations.
Open Scope Z_scope.
Open Scope string_scope.

(* ------------------------------------------------------------------ *)
(** ** Python values and dictionaries *)

Inductive pyval : Type :=
| PNone
| PInt (z : Z)
| PStr (s : string)
| PBool (b : bool).

(** Python truthiness ([if not x:]). *)
Definition truthy (v : pyval) : bool :=
  match v with
  | PNone => false
  | PInt z => negb (Z.eqb z 0)
  | PStr s => negb (String.eqb s "")
  | PBool b => b
  end.

Definition pyval_eqb (a b : pyval) : bool :=
  match a, b with
  | PNone, PNone => true
  | PInt x, PInt y => Z.eqb x y
  | PStr x, PStr y => String.eqb x y
  | PBool x, PBool y => Bool.eqb x y
  | _, _ => false
  end.

Definition dict := list (string * pyval).

(** [d.get(k)] *)
Fixpoint dict_get (d : dict) (k : string) : pyval :=
  match d with
  | [] => PNone
  | (k', v) :: d' => if String.eqb k k' then v else dict_get d' k
  end.

(** [d[k] = v] *)
Fixpoint dict_set (d : dict) (k : string) (v : pyval) : dict :=
  match d with
  | [] => [(k, v)]
  | (k', v') :: d' =>
      if String.eqb k k' then (k', v) :: d' else (k', v') :: dict_set d' k v
  end.

Definition opt_str (o : option string) : pyval :=
  match o with None => PNone | Some s => PStr s end.

(** Result of an endpoint: a value or an [HTTPException]. *)
Inductive http_result (A : Type) : Type :=
| Ok (a : A)
| HTTPError (status_code : Z) (detail : string).
Arguments Ok {A} a.
Arguments HTTPError {A} status_code detail.

Definition HTTP_400_BAD_REQUEST := 400.
Definition HTTP_401_UNAUTHORIZED := 401.
Definition HTTP_403_FORBIDDEN := 403.
Definition HTTP_404_NOT_FOUND := 404.
Definition HTTP_500_INTERNAL_SERVER_ERROR := 500.

(* ------------------------------------------------------------------ *)
(** ** [security/roles.py] *)

Inductive Role : Type :=
| PENDING | TEACHER | PARAEDUCATOR | ADMIN | SUPER_ADMIN | SUPERUSER.

Definition role_value (r : Role) : string :=
  match r with
  | PENDING => "pending"
  | TEACHER => "teacher"
  | PARAEDUCATOR => "paraeducator"
  | ADMIN => "admin"
  | SUPER_ADMIN => "super_admin"
  | SUPERUSER => "superuser"
  end.

(** [Role(s)]: [None] stands for the [ValueError] of an unknown value. *)
Definition Role_of_string (s : string) : option Role :=
  if String.eqb s "pending" then Some PENDING
  else if String.eqb s "teacher" then Some TEACHER
  else if String.eqb s "paraeducator" then Some PARAEDUCATOR
  else if String.eqb s "admin" then Some ADMIN
  else if String.eqb s "super_admin" then Some SUPER_ADMIN
  else if String.eqb s "superuser" then Some SUPERUSER
  else None.

Definition Role_eqb (a b : Role) : bool := String.eqb (role_value a) (role_value b).

(* ------------------------------------------------------------------ *)
(** ** [security/jwt_manager.py] and [security/dependencies.py] *)

(** [TokenPayload] (pydantic model). *)
Record TokenPayload : Type := mkTokenPayload {
  tp_user_id : Z;
  tp_email : string;
  tp_role : Role;
  tp_first_name : option string;
  tp_last_name : option string;
  tp_desired_name : option string
}.

(** A bearer string is either a compact JWT signed with some key over a
    claims dictionary, or any other string. *)
Inductive jwt_token : Type :=
| Signed (claims : dict) (key : string)
| Garbage (s : string).

(** The two exception classes the callers distinguish
    ([ExpiredSignatureError] is a subclass of [InvalidTokenError]). *)
Inductive jwt_error : Type :=
| ExpiredSignatureError
| InvalidTokenError.

(** [jwt.encode(to_encode, key, algorithm="HS256")]; datetimes in the
    claims have already been turned into integer timestamps. *)
Definition jwt_encode (claims : dict) (key : string) : jwt_token :=
  Signed claims key.

(** PyJWT's claim checks: [iat] must not lie in the future
    ([ImmatureSignatureError]), then [exp] must lie strictly in the
    future ([ExpiredSignatureError] when [exp <= now], leeway 0); a
    non-integer timestamp is a [DecodeError]. *)
Definition jwt_validate_iat (claims : dict) (now : Z) : option jwt_error :=
  match dict_get claims "iat" with
  | PNone => None
  | PInt i => if Z.ltb now i then Some InvalidTokenError else None
  | _ => Some InvalidTokenError
  end.

Definition jwt_validate_exp (claims : dict) (now : Z) : option jwt_error :=
  match dict_get claims "exp" with
  | PNone => None
  | PInt e => if Z.leb e now then Some ExpiredSignatureError else None
  | _ => Some InvalidTokenError
  end.

(** [jwt.decode(token, key, algorithms=["HS256"])] at time [now]. *)
Definition jwt_decode (t : jwt_token) (key : string) (now : Z)
  : dict + jwt_error :=
  match t with
  | Garbage _ => inr InvalidTokenError
  | Signed claims k =>
      if negb (String.eqb k key) then inr InvalidTokenError else
      match jwt_validate_iat claims now with
      | Some e => inr e
      | None =>
          match jwt_validate_exp claims now with
          | Some e => inr e
          | None => inl claims
          end
      end
  end.

Section Backend.

(** [JWTManager.SECRET_KEY]: read once from the environment. *)
Variable SECRET_KEY : string.

(** passlib's [CryptContext(schemes=["argon2"])]: [pwd_hash salt p] is the
    digest of [p] under the random [salt] drawn by the call, [pwd_verify p h]
    is [pwd_context.verify(p, h)]. *)
Variable pwd_hash : string -> string -> string.
Variable pwd_verify : string -> string -> bool.

Definition ACCESS_TOKEN_EXPIRE_MINUTES : Z := 30.
Definition REFRESH_TOKEN_EXPIRE_DAYS : Z := 7.

(** [payload.model_dump()] *)
Definition model_dump (p : TokenPayload) : dict :=
  [("user_id", PInt (tp_user_id p));
   ("email", PStr (tp_email p));
   ("role", PStr (role_value (tp_role p)));
   ("first_name", opt_str (tp_first_name p));
   ("last_name", opt_str (tp_last_name p));
   ("desired_name", opt_str (tp_desired_name p))].

(** [JWTManager.create_access_token] *)
Definition create_access_token (payload : TokenPayload) (now : Z) : jwt_token :=
  let to_encode := model_dump payload in
  let to_encode := dict_set to_encode "type" (PStr "access") in
  let to_encode := dict_set to_encode "role" (PStr (role_value (tp_role payload))) in
  let expire := now + ACCESS_TOKEN_EXPIRE_MINUTES * 60 in
  let to_encode := dict_set to_encode "exp" (PInt expire) in
  let to_encode := dict_set to_encode "iat" (PInt now) in
  jwt_encode to_encode SECRET_KEY.

(** [JWTManager.create_refresh_token] *)
Definition create_refresh_token (payload : TokenPayload) (now : Z) : jwt_token :=
  let to_encode := [("user_id", PInt (tp_user_id payload));
                    ("email", PStr (tp_email payload))] in
  let to_encode := dict_set to_encode "type" (PStr "refresh") in
  let expire := now + REFRESH_TOKEN_EXPIRE_DAYS * 86400 in
  let to_encode := dict_set to_encode "exp" (PInt expire) in
  let to_encode := dict_set to_encode "iat" (PInt now) in
  jwt_encode to_encode SECRET_KEY.

(** [JWTManager.verify_token] *)
Definition verify_token (token : jwt_token) (now : Z) : dict + jwt_error :=
  jwt_decode token SECRET_KEY now.

(** [get_current_user]: the [HTTPException] raised for a wrong [type] is
    not caught by the [except jwt...] clauses. *)
Definition get_current_user (token : jwt_token) (now : Z) : http_result dict :=
  match verify_token token now with
  | inl payload =>
      if negb (pyval_eqb (dict_get payload "type") (PStr "access"))
      then HTTPError HTTP_401_UNAUTHORIZED "Invalid token type"
      else Ok payload
  | inr ExpiredSignatureError => HTTPError HTTP_401_UNAUTHORIZED "Token has expired"
  | inr InvalidTokenError => HTTPError HTTP_401_UNAUTHORIZED "Invalid token"
  end.

Fixpoint join_comma (l : list string) : string :=
  match l with
  | [] => ""
  | [x] => x
  | x :: l' => x ++ ", " ++ join_comma l'
  end.

(** [role_checker] built by [require_role( *allowed_roles)], applied to the
    dictionary [get_current_user] produced. *)
Definition require_role (allowed_roles : list Role) (current_user : dict)
  : http_result dict :=
  let user_role := dict_get current_user "role" in
  if pyval_eqb user_role (PStr (role_value SUPERUSER)) then Ok current_user else
  let allowed_role_values := map role_value allowed_roles in
  if negb (existsb (fun v => pyval_eqb user_role (PStr v)) allowed_role_values)
  then HTTPError HTTP_403_FORBIDDEN
         ("Insufficient permissions. Required role: " ++ join_comma allowed_role_values)
  else Ok current_user.

(** The dependency chain [Depends(require_role(...))]: the bearer token is
    first resolved by [get_current_user]. *)
Definition role_guard (allowed_roles : list Role) (token : jwt_token) (now : Z)
  : http_result dict :=
  match get_current_user token now with
  | Ok current_user => require_role allowed_roles current_user
  | HTTPError c d => HTTPError c d
  end.

(* ------------------------------------------------------------------ *)
(** ** [models.py] ([User]) and [db.py] *)

(** A row of the [users] table (the columns the endpoints read or write;
    [id] is [user_id] here). Nullable columns are options; the
    [approved_by_id] / [rejected_by_id] columns keep the Python value that
    was assigned to them. *)
Record User : Type := mkUser {
  user_id : Z;
  email : string;
  username : string;
  hashed_password : string;
  first_name : option string;
  last_name : option string;
  desired_name : option string;
  phone : option string;
  is_active : bool;
  role : string;
  is_approved : bool;
  approved_at : option Z;
  approved_by_id : pyval;
  approval_notes : option string;
  is_rejected : bool;
  rejected_at : option Z;
  rejected_by_id : pyval;
  rejection_reason : option string;
  registered_date : option Z;
  password_reset_token : option string;
  password_reset_expires : option Z;
  password_reset_requested_at : option Z
}.

Definition Db := list User.

(** [db.query(User).filter(User.id == i).first()] *)
Definition get_user_by_id (db : Db) (i : Z) : option User :=
  find (fun u => Z.eqb (user_id u) i) db.

(** [get_user_by_email] *)
Definition get_user_by_email (db : Db) (e : string) : option User :=
  find (fun u => String.eqb (email u) e) db.

(** [get_user_by_username] *)
Definition get_user_by_username (db : Db) (n : string) : option User :=
  find (fun u => String.eqb (username u) n) db.

(** [user_exists(db, email=None, username=None)] *)
Definition user_exists (db : Db) (e : option string) (n : option string) : bool :=
  match e with
  | Some e' => if negb (String.eqb e' "") then
                 match get_user_by_email db e' with Some _ => true | None => false end
               else match n with
                    | Some n' => if negb (String.eqb n' "") then
                                   match get_user_by_username db n' with
                                   | Some _ => true | None => false end
                                 else false
                    | None => false
                    end
  | None => match n with
            | Some n' => if negb (String.eqb n' "") then
                           match get_user_by_username db n' with
                           | Some _ => true | None => false end
                         else false
            | None => false
            end
  end.

(** [verify_password] *)
Definition verify_password (plain hashed : string) : bool := pwd_verify plain hashed.

(** [authenticate_user(db, email, password)] *)
Definition authenticate_user (db : Db) (e : string) (password : string) : option User :=
  match get_user_by_email db e with
  | None => None
  | Some u => if verify_password password (hashed_password u) then Some u else None
  end.

(** Replace the row with the same id ([db.add(user); db.commit()]). *)
Definition db_update (db : Db) (u : User) : Db :=
  map (fun v => if Z.eqb (user_id v) (user_id u) then u else v) db.

Definition next_id (db : Db) : Z :=
  1 + fold_right (fun u m => Z.max (user_id u) m) 0 db.

(** Exceptions of a [create_user] call that its callers do not catch as
    [HTTPException]: a keyword argument outside its signature ([TypeError])
    and a unique-index violation on commit ([IntegrityError], an
    [SQLAlchemyError]). *)
Inductive create_error : Type :=
| TypeError
| IntegrityError.

(** Parameters of [db.create_user]. *)
Definition create_user_params : list string :=
  ["db"; "email"; "username"; "password"; "first_name"; "last_name";
   "role"; "is_approved"].

(** [db.create_user(db, email, username, password, first_name=None,
    last_name=None, role="pending", is_approved=False)], called with the
    keyword names [kwargs]; [salt] is the salt drawn by [hash_password]. *)
Definition create_user (kwargs : list string) (db : Db) (salt : string)
  (e n password : string) (fn ln : option string)
  (r : string) (approved : bool) : create_error + (Db * User) :=
  if negb (forallb (fun k => existsb (String.eqb k) create_user_params) kwargs)
  then inl TypeError else
  let u := {| user_id := next_id db; email := e; username := n;
              hashed_password := pwd_hash salt password;
              first_name := fn; last_name := ln; desired_name := None;
              phone := None; is_active := true; role := r;
              is_approved := approved; approved_at := None;
              approved_by_id := PNone; approval_notes := None;
              is_rejected := false; rejected_at := None;
              rejected_by_id := PNone; rejection_reason := None;
              registered_date := None; password_reset_token := None;
              password_reset_expires := None;
              password_reset_requested_at := None |} in
  match get_user_by_email db e, get_user_by_username db n with
  | None, None => inr ((db ++ [u])%list, u)
  | _, _ => inl IntegrityError
  end.

(* ------------------------------------------------------------------ *)
(** ** [password_validator.py] *)

Definition MIN_LENGTH : nat := 12.
Definition SPECIAL_CHARS : string := "!@#$%^&*()_+-=[]{}|;:,.<>?".

Definition ascii_between (lo hi c : ascii) : bool :=
  (Nat.leb (nat_of_ascii lo) (nat_of_ascii c) &&
   Nat.leb (nat_of_ascii c) (nat_of_ascii hi))%bool.

(** [re.search(r"[A-Z]", s)], [re.search(r"[a-z]", s)], [re.search(r"\d", s)]
    on ASCII strings. *)
Fixpoint str_exists (p : ascii -> bool) (s : string) : bool :=
  match s with
  | EmptyString => false
  | String c s' => (p c || str_exists p s')%bool
  end.

Definition is_upper (c : ascii) : bool := ascii_between "A" "Z" c.
Definition is_lower (c : ascii) : bool := ascii_between "a" "z" c.
Definition is_digit (c : ascii) : bool := ascii_between "0" "9" c.

(** [char in SPECIAL_CHARS] *)
Definition is_special (c : ascii) : bool :=
  str_exists (fun d => Ascii.eqb c d) SPECIAL_CHARS.

(** [str.lower()] *)
Definition lower_ascii (c : ascii) : ascii :=
  if is_upper c then ascii_of_nat (nat_of_ascii c + 32) else c.

Fixpoint lower (s : string) : string :=
  match s with
  | EmptyString => EmptyString
  | String c s' => String (lower_ascii c) (lower s')
  end.

Fixpoint is_prefix (p s : string) : bool :=
  match p, s with
  | EmptyString, _ => true
  | String _ _, EmptyString => false
  | String c p', String d s' => (Ascii.eqb c d && is_prefix p' s')%bool
  end.

(** [p in s] for strings. *)
Fixpoint contains (p s : string) : bool :=
  (is_prefix p s ||
   match s with
   | EmptyString => false
   | String _ s' => contains p s'
   end)%bool.

Definition msg_length := "Password must be at least 12 characters long".
Definition msg_upper := "Password must contain at least one uppercase letter".
Definition msg_lower := "Password must contain at least one lowercase letter".
Definition msg_digit := "Password must contain at least one digit".
Definition msg_special :=
  "Password must contain at least one special character (" ++ SPECIAL_CHARS ++ ")".
Definition msg_username := "Password should not contain your username or email".

(** [PasswordValidator.validate]: each check appends to [errors]. *)
Definition validate (password : string) : bool * list string :=
  let errors := @nil string in
  let errors := if Nat.ltb (String.length password) MIN_LENGTH
                then (errors ++ [msg_length])%list else errors in
  let errors := if negb (str_exists is_upper password)
                then (errors ++ [msg_upper])%list else errors in
  let errors := if negb (str_exists is_lower password)
                then (errors ++ [msg_lower])%list else errors in
  let errors := if negb (str_exists is_digit password)
                then (errors ++ [msg_digit])%list else errors in
  let errors := if negb (str_exists is_special password)
                then (errors ++ [msg_special])%list else errors in
  (Nat.eqb (List.length errors) 0, errors).

Record ValidationResult : Type := mkValidationResult {
  is_valid : bool;
  errors : list string;
  strength_guide : list string
}.

Definition STRENGTH_GUIDE : list string :=
  ["At least 12 characters long";
   "Contains uppercase and lowercase letters";
   "Contains at least one number";
   "Contains at least one special character (" ++ SPECIAL_CHARS ++ ")";
   "Does not contain your username or email"].

(** [validate_password(password, username="")] *)
Definition validate_password (password : string) (username : string)
  : ValidationResult :=
  let (is_valid0, errors0) := validate password in
  let '(v, errs) :=
    if (negb (String.eqb username "") && contains (lower username) (lower password))%bool
    then (false, (errors0 ++ [msg_username])%list)
    else (is_valid0, errors0) in
  {| is_valid := v; errors := errs; strength_guide := STRENGTH_GUIDE |}.

(* ------------------------------------------------------------------ *)
(** ** [routers/auth.py]: login, refresh, /me *)

Definition str_of_Z (z : Z) : string := NilZero.string_of_int (Z.to_int z).

(** [credentials.email or credentials.username] for two [Optional[str]]. *)
Definition py_or_str (a b : option string) : option string :=
  match a with
  | Some s => if String.eqb s "" then b else Some s
  | None => b
  end.

Definition truthy_opt_str (a : option string) : bool :=
  match a with Some s => negb (String.eqb s "") | None => false end.

(** The [TokenPayload(...)] both [login] and [refresh_token] build. *)
Definition payload_of_user (u : User) (r : Role) : TokenPayload :=
  {| tp_user_id := user_id u; tp_email := email u; tp_role := r;
     tp_first_name := first_name u; tp_last_name := last_name u;
     tp_desired_name := desired_name u |}.

(** [POST /auth/login]: returns the access token and the user row
    ([_build_user_info]). *)
Definition login (db : Db) (req_email req_username : option string)
  (password : string) (now : Z) : http_result (jwt_token * User) :=
  let email_or_username := py_or_str req_email req_username in
  match email_or_username with
  | None => HTTPError HTTP_400_BAD_REQUEST "Either email or username must be provided"
  | Some ident =>
      if String.eqb ident "" then
        HTTPError HTTP_400_BAD_REQUEST "Either email or username must be provided"
      else
      match authenticate_user db ident password with
      | None => HTTPError HTTP_401_UNAUTHORIZED "Invalid email/username or password"
      | Some u =>
          match Role_of_string (role u) with
          | None => HTTPError HTTP_500_INTERNAL_SERVER_ERROR
                      "Failed to generate authentication token"
          | Some r => Ok (create_access_token (payload_of_user u r) now, u)
          end
      end
  end.

(** [db.query(User).filter(User.id == v).first()] for a claim value [v]
    read out of a token: an integer claim selects that id; any other value
    selects no row of the integer [id] column. *)
Definition get_user_by_claim (db : Db) (v : pyval) : option User :=
  match v with
  | PInt i => get_user_by_id db i
  | _ => None
  end.

Definition msg_refresh_failed := "Invalid or expired refresh token".

(** [POST /auth/refresh]: every [ValueError] and JWT error raised inside the
    [try] becomes the same 401. *)
Definition refresh_token (db : Db) (token : jwt_token) (now : Z)
  : http_result jwt_token :=
  match verify_token token now with
  | inr _ => HTTPError HTTP_401_UNAUTHORIZED msg_refresh_failed
  | inl payload =>
      if negb (pyval_eqb (dict_get payload "type") (PStr "refresh"))
      then HTTPError HTTP_401_UNAUTHORIZED msg_refresh_failed else
      let uid := dict_get payload "sub" in
      if negb (truthy uid) then HTTPError HTTP_401_UNAUTHORIZED msg_refresh_failed else
      match get_user_by_claim db uid with
      | None => HTTPError HTTP_401_UNAUTHORIZED msg_refresh_failed
      | Some u =>
          if negb (is_approved u) then HTTPError HTTP_401_UNAUTHORIZED msg_refresh_failed
          else match Role_of_string (role u) with
               | None => HTTPError HTTP_401_UNAUTHORIZED msg_refresh_failed
               | Some r => Ok (create_access_token (payload_of_user u r) now)
               end
      end
  end.

(** [get_me], given the dictionary [get_current_user] returned. *)
Definition get_me (db : Db) (current_user : dict) : http_result User :=
  let uid := dict_get current_user "sub" in
  if negb (truthy uid) then HTTPError HTTP_401_UNAUTHORIZED "Invalid token" else
  match get_user_by_claim db uid with
  | None => HTTPError HTTP_404_NOT_FOUND "User not found"
  | Some u => Ok u
  end.

(** [GET /auth/me] with its [Depends(get_current_user)]. *)
Definition get_me_endpoint (db : Db) (token : jwt_token) (now : Z) : http_result User :=
  match get_current_user token now with
  | Ok current_user => get_me db current_user
  | HTTPError c d => HTTPError c d
  end.

(* ------------------------------------------------------------------ *)
(** ** [routers/auth.py]: check-email and the password-reset pair *)

(** [POST /auth/check-email]: the [exists] field of [{"exists": exists}]. *)
Definition check_email (db : Db) (e : string) : bool :=
  user_exists db (Some e) None.

Record ForgotPasswordResponse : Type := mkForgotPasswordResponse {
  fp_message : string;
  fp_email : string
}.

Definition msg_forgot :=
  "If this email is registered, you will receive a password reset link shortly.".

(** What the environment decides during one [forgot_password] call:
    [int(os.getenv("PASSWORD_RESET_TOKEN_EXPIRY_HOURS", "1"))] ([None] when
    [int] raises), whether [db.commit()] raises an [SQLAlchemyError], and
    whether [get_email_service()] or [send_password_reset_email] raises. *)
Record ForgotEnv : Type := mkForgotEnv {
  env_expiry_hours : option Z;
  env_commit_fails : bool;
  env_email_raises : bool
}.

(** [POST /auth/forgot-password]; [reset_tok] is the value
    [secrets.token_urlsafe(32)] returned. All three [return] statements of
    the source are kept apart. *)
Definition forgot_password (db : Db) (req_email : string) (now : Z)
  (reset_tok : string) (env : ForgotEnv) : ForgotPasswordResponse * Db :=
  let generic := {| fp_message := msg_forgot; fp_email := req_email |} in
  match get_user_by_email db req_email with
  | None => (generic, db)
  | Some u =>
      match env_expiry_hours env with
      | None => (* [except Exception] *)
          ({| fp_message := msg_forgot; fp_email := req_email |}, db)
      | Some expiry_hours =>
          let u' := {| user_id := user_id u; email := email u;
                       username := username u; hashed_password := hashed_password u;
                       first_name := first_name u; last_name := last_name u;
                       desired_name := desired_name u; phone := phone u;
                       is_active := is_active u; role := role u;
                       is_approved := is_approved u; approved_at := approved_at u;
                       approved_by_id := approved_by_id u;
                       approval_notes := approval_notes u;
                       is_rejected := is_rejected u; rejected_at := rejected_at u;
                       rejected_by_id := rejected_by_id u;
                       rejection_reason := rejection_reason u;
                       registered_date := registered_date u;
                       password_reset_token := Some reset_tok;
                       password_reset_expires := Some (now + expiry_hours * 3600);
                       password_reset_requested_at := Some now |} in
          if env_commit_fails env then (* [except SQLAlchemyError]: rollback *)
            ({| fp_message := msg_forgot; fp_email := req_email |}, db)
          else
            let db' := db_update db u' in
            if env_email_raises env then (* [except Exception] *)
              ({| fp_message := msg_forgot; fp_email := req_email |}, db')
            else (generic, db')
      end
  end.

Record ResetPasswordResponse : Type := mkResetPasswordResponse {
  rp_message : string;
  rp_email : string
}.

Definition msg_reset_invalid :=
  "Invalid or expired password reset link. Please request a new one.".
Definition msg_reset_expired :=
  "Password reset link has expired. Please request a new one.".

(** [db.query(User).filter(User.password_reset_token == token).first()];
    a NULL column matches no token. *)
Definition get_user_by_reset_token (db : Db) (token : string) : option User :=
  find (fun u => match password_reset_token u with
                 | Some t => String.eqb t token
                 | None => false
                 end) db.

(** [POST /auth/reset-password]; [salt] is the salt [pwd_context.hash]
    draws. (A commit that raises rolls back and answers 500; commits
    succeed here. The success message starts with a check-mark emoji,
    left out of this ASCII string.) *)
Definition reset_password (db : Db) (token new_password : string) (now : Z)
  (salt : string) : http_result ResetPasswordResponse * Db :=
  let validation_result := validate_password new_password "" in
  if negb (is_valid validation_result) then
    (HTTPError HTTP_400_BAD_REQUEST "New password does not meet security requirements", db)
  else
  match get_user_by_reset_token db token with
  | None => (HTTPError HTTP_400_BAD_REQUEST msg_reset_invalid, db)
  | Some u =>
      match password_reset_expires u with
      | None => (HTTPError HTTP_400_BAD_REQUEST msg_reset_expired, db)
      | Some exp =>
          if Z.ltb exp now then (HTTPError HTTP_400_BAD_REQUEST msg_reset_expired, db)
          else
          let u' := {| user_id := user_id u; email := email u;
                       username := username u;
                       hashed_password := pwd_hash salt new_password;
                       first_name := first_name u; last_name := last_name u;
                       desired_name := desired_name u; phone := phone u;
                       is_active := is_active u; role := role u;
                       is_approved := is_approved u; approved_at := approved_at u;
                       approved_by_id := approved_by_id u;
                       approval_notes := approval_notes u;
                       is_rejected := is_rejected u; rejected_at := rejected_at u;
                       rejected_by_id := rejected_by_id u;
                       rejection_reason := rejection_reason u;
                       registered_date := registered_date u;
                       password_reset_token := None;
                       password_reset_expires := None;
                       password_reset_requested_at := None |} in
          (Ok {| rp_message := "Your password has been successfully reset. You can now login with your new password.";
                 rp_email := email u |}, db_update db u')
      end
  end.

(* ------------------------------------------------------------------ *)
(** ** [routers/auth.py]: registration and the admin endpoints *)

(** [POST /auth/register]: the password policy, the two 409 checks, then
    [create_user(db=..., email=..., username=..., password=...,
    first_name=..., last_name=..., desired_name=..., phone=...)]. A
    [TypeError] escapes the [try] (500); an [IntegrityError] is an
    [SQLAlchemyError] (500, rollback). *)
Definition register (db : Db) (salt e n password fn ln : string)
  : http_result User * Db :=
  let local_part := match String.index 0 "@" e with
                    | Some i => substring 0 i e
                    | None => e
                    end in
  let validation_result := validate_password password local_part in
  if negb (is_valid validation_result) then
    (HTTPError HTTP_400_BAD_REQUEST "Password does not meet security requirements", db)
  else if user_exists db (Some e) None then
    (HTTPError 409 "Email already registered. Please login or reset your password.", db)
  else if (match get_user_by_username db n with Some _ => true | None => false end) then
    (HTTPError 409 "Username already taken. Please choose a different username.", db)
  else
  match create_user ["db"; "email"; "username"; "password"; "first_name";
                     "last_name"; "desired_name"; "phone"]
                    db salt e n password (Some fn) (Some ln) "pending" false with
  | inl TypeError => (HTTPError HTTP_500_INTERNAL_SERVER_ERROR "Internal Server Error", db)
  | inl IntegrityError =>
      (HTTPError HTTP_500_INTERNAL_SERVER_ERROR "Failed to create user account", db)
  | inr (db', u) => (Ok u, db')
  end.

(** [approve_user], given the dictionary the [require_role] guard
    returned. *)
Definition approve_user (db : Db) (req_user_id : Z) (approval_notes_req : option string)
  (req_role : string) (current_user : dict) (now : Z) : http_result User * Db :=
  match get_user_by_id db req_user_id with
  | None => (HTTPError HTTP_404_NOT_FOUND
               ("User with ID " ++ str_of_Z req_user_id ++ " not found"), db)
  | Some u =>
      match Role_of_string req_role with
      | None | Some PENDING =>
          (HTTPError HTTP_400_BAD_REQUEST ("Invalid role: " ++ req_role), db)
      | Some requested_role =>
          let u' := {| user_id := user_id u; email := email u;
                       username := username u; hashed_password := hashed_password u;
                       first_name := first_name u; last_name := last_name u;
                       desired_name := desired_name u; phone := phone u;
                       is_active := is_active u;
                       role := role_value requested_role;
                       is_approved := true;
                       approved_at := Some now;
                       approved_by_id := dict_get current_user "sub";
                       approval_notes := approval_notes_req;
                       is_rejected := false;
                       rejected_at := rejected_at u;
                       rejected_by_id := rejected_by_id u;
                       rejection_reason := None;
                       registered_date := Some now;
                       password_reset_token := password_reset_token u;
                       password_reset_expires := password_reset_expires u;
                       password_reset_requested_at := password_reset_requested_at u |} in
          (Ok u', db_update db u')
      end
  end.

Definition ADMIN_ROLES : list Role := [ADMIN; SUPER_ADMIN].

(** [POST /auth/admin/approve-user] with its [require_role(ADMIN, SUPER_ADMIN)]. *)
Definition approve_user_endpoint (db : Db) (token : jwt_token) (now : Z)
  (req_user_id : Z) (notes : option string) (req_role : string)
  : http_result User * Db :=
  match role_guard ADMIN_ROLES token now with
  | Ok current_user => approve_user db req_user_id notes req_role current_user now
  | HTTPError c d => (HTTPError c d, db)
  end.

(** [reject_user] *)
Definition reject_user (db : Db) (req_user_id : Z) (reason : string)
  (current_user : dict) (now : Z) : http_result User * Db :=
  match get_user_by_id db req_user_id with
  | None => (HTTPError HTTP_404_NOT_FOUND
               ("User with ID " ++ str_of_Z req_user_id ++ " not found"), db)
  | Some u =>
      let u' := {| user_id := user_id u; email := email u;
                   username := username u; hashed_password := hashed_password u;
                   first_name := first_name u; last_name := last_name u;
                   desired_name := desired_name u; phone := phone u;
                   is_active := false; role := role u;
                   is_approved := is_approved u; approved_at := approved_at u;
                   approved_by_id := approved_by_id u;
                   approval_notes := approval_notes u;
                   is_rejected := true; rejected_at := Some now;
                   rejected_by_id := dict_get current_user "sub";
                   rejection_reason := Some reason;
                   registered_date := registered_date u;
                   password_reset_token := password_reset_token u;
                   password_reset_expires := password_reset_expires u;
                   password_reset_requested_at := password_reset_requested_at u |} in
      (Ok u', db_update db u')
  end.

Definition EDUCATOR_ROLES : list string :=
  [role_value TEACHER; role_value PARAEDUCATOR; role_value ADMIN].

(** [CreateEducatorRequest] *)
Record CreateEducatorRequest : Type := mkCreateEducatorRequest {
  ce_first_name : string;
  ce_last_name : string;
  ce_email : string;
  ce_role : string;
  ce_phone : string;
  ce_username : string;
  ce_password : string;
  ce_desired_name : option string
}.

(** [POST /auth/admin/educators], given the guard's dictionary:
    [create_user] is called with the keywords [desired_name] and [phone]
    besides the parameters it declares. *)
Definition create_educator (db : Db) (req : CreateEducatorRequest)
  (current_user : dict) (now : Z) (salt : string) : http_result User * Db :=
  if negb (existsb (String.eqb (ce_role req)) EDUCATOR_ROLES) then
    (HTTPError HTTP_400_BAD_REQUEST
       ("Invalid role. Must be one of: " ++ join_comma EDUCATOR_ROLES), db)
  else if (match get_user_by_email db (ce_email req) with Some _ => true | None => false end)
  then (HTTPError HTTP_400_BAD_REQUEST "Email already exists", db)
  else if (negb (String.eqb (ce_username req) "") &&
           match get_user_by_username db (ce_username req) with
           | Some _ => true | None => false end)%bool
  then (HTTPError HTTP_400_BAD_REQUEST "Username already exists", db)
  else
  match create_user ["db"; "email"; "password"; "first_name"; "last_name";
                     "username"; "desired_name"; "phone"]
                    db salt (ce_email req) (ce_username req) (ce_password req)
                    (Some (ce_first_name req)) (Some (ce_last_name req))
                    "pending" false with
  | inl TypeError => (HTTPError HTTP_500_INTERNAL_SERVER_ERROR "Internal Server Error", db)
  | inl IntegrityError =>
      (HTTPError HTTP_500_INTERNAL_SERVER_ERROR "Failed to create educator", db)
  | inr (db1, new_user) =>
      let u' := {| user_id := user_id new_user; email := email new_user;
                   username := username new_user;
                   hashed_password := hashed_password new_user;
                   first_name := first_name new_user; last_name := last_name new_user;
                   desired_name := desired_name new_user; phone := phone new_user;
                   is_active := is_active new_user;
                   role := ce_role req;
                   is_approved := true;
                   approved_at := Some now;
                   approved_by_id := dict_get current_user "sub";
                   approval_notes := approval_notes new_user;
                   is_rejected := is_rejected new_user;
                   rejected_at := rejected_at new_user;
                   rejected_by_id := rejected_by_id new_user;
                   rejection_reason := rejection_reason new_user;
                   registered_date := Some now;
                   password_reset_token := password_reset_token new_user;
                   password_reset_expires := password_reset_expires new_user;
                   password_reset_requested_at := password_reset_requested_at new_user |} in
      (Ok u', db_update db1 u')
  end.

(** [UpdateEducatorRequest] *)
Record UpdateEducatorRequest : Type := mkUpdateEducatorRequest {
  ue_first_name : option string;
  ue_last_name : option string;
  ue_email : option string;
  ue_role : option string;
  ue_phone : option string;
  ue_username : option string;
  ue_password : option string;
  ue_desired_name : option string
}.

Definition set_if_not_none {A} (o : option A) (old : A) : A :=
  match o with Some v => v | None => old end.

Definition set_opt_if_not_none {A} (o : option A) (old : option A) : option A :=
  match o with Some v => Some v | None => old end.

(** [PUT /auth/admin/educators/{id}], given the guard's dictionary. The
    password branch assigns [educator.password_hash], an attribute that is
    not a column of [User], so the stored [hashed_password] is kept. *)
Definition update_educator (db : Db) (educator_id : Z) (req : UpdateEducatorRequest)
  : http_result User * Db :=
  match get_user_by_id db educator_id with
  | None => (HTTPError HTTP_404_NOT_FOUND
               ("Educator with ID " ++ str_of_Z educator_id ++ " not found"), db)
  | Some ed =>
      if (truthy_opt_str (ue_role req) &&
          negb (existsb (String.eqb (set_if_not_none (ue_role req) ""))
                        EDUCATOR_ROLES))%bool
      then (HTTPError HTTP_400_BAD_REQUEST
              ("Invalid role. Must be one of: " ++ join_comma EDUCATOR_ROLES), db)
      else if (truthy_opt_str (ue_email req) &&
               negb (String.eqb (set_if_not_none (ue_email req) "") (email ed)) &&
               match get_user_by_email db (set_if_not_none (ue_email req) "") with
               | Some _ => true | None => false end)%bool
      then (HTTPError HTTP_400_BAD_REQUEST "Email already exists", db)
      else if (truthy_opt_str (ue_username req) &&
               negb (String.eqb (set_if_not_none (ue_username req) "") (username ed)) &&
               match get_user_by_username db (set_if_not_none (ue_username req) "") with
               | Some _ => true | None => false end)%bool
      then (HTTPError HTTP_400_BAD_REQUEST "Username already exists", db)
      else
      let u' := {| user_id := user_id ed;
                   email := set_if_not_none (ue_email req) (email ed);
                   username := set_if_not_none (ue_username req) (username ed);
                   hashed_password := hashed_password ed;
                   first_name := set_opt_if_not_none (ue_first_name req) (first_name ed);
                   last_name := set_opt_if_not_none (ue_last_name req) (last_name ed);
                   desired_name := set_opt_if_not_none (ue_desired_name req) (desired_name ed);
                   phone := set_opt_if_not_none (ue_phone req) (phone ed);
                   is_active := is_active ed;
                   role := set_if_not_none (ue_role req) (role ed);
                   is_approved := is_approved ed; approved_at := approved_at ed;
                   approved_by_id := approved_by_id ed;
                   approval_notes := approval_notes ed;
                   is_rejected := is_rejected ed; rejected_at := rejected_at ed;
                   rejected_by_id := rejected_by_id ed;
                   rejection_reason := rejection_reason ed;
                   registered_date := registered_date ed;
                   password_reset_token := password_reset_token ed;
                   password_reset_expires := password_reset_expires ed;
                   password_reset_requested_at := password_reset_requested_at ed |} in
      (Ok u', db_update db u')
  end.

(** [DELETE /auth/admin/educators/{id}] *)
Definition delete_educator (db : Db) (educator_id : Z) : http_result Z * Db :=
  match get_user_by_id db educator_id with
  | None => (HTTPError HTTP_404_NOT_FOUND
               ("Educator with ID " ++ str_of_Z educator_id ++ " not found"), db)
  | Some _ => (Ok educator_id, filter (fun u => negb (Z.eqb (user_id u) educator_id)) db)
  end.

(** An admin endpoint behind [Depends(require_role(ADMIN, SUPER_ADMIN))]. *)
Definition admin_guarded {A} (db : Db) (token : jwt_token) (now : Z)
  (handler : dict -> http_result A * Db) : http_result A * Db :=
  match role_guard ADMIN_ROLES token now with
  | Ok current_user => handler current_user
  | HTTPError c d => (HTTPError c d, db)
  end.

(* ------------------------------------------------------------------ *)
(** ** [routers/users.py] *)

(** [UserUpdate] (the fields stored in [User]; [timezone] and
    [profile_image] are not modelled). *)
Record UserUpdate : Type := mkUserUpdate {
  uu_email : option string;
  uu_first_name : option string;
  uu_last_name : option string;
  uu_role : option string;
  uu_desired_name : option string;
  uu_phone : option string
}.

Definition set_if_truthy (o : option string) (old : string) : string :=
  if truthy_opt_str o then set_if_not_none o old else old.

Definition set_opt_if_truthy (o : option string) (old : option string) : option string :=
  if truthy_opt_str o then o else old.

(** [PUT /users/{user_id}] (no authentication dependency). [role] is
    [Optional[str]], "Can be any role value". A commit whose new email
    collides with another row raises [IntegrityError] (409, rollback). *)
Definition update_user (db : Db) (uid : Z) (req : UserUpdate) : http_result User * Db :=
  match get_user_by_id db uid with
  | None => (HTTPError HTTP_404_NOT_FOUND "User not found", db)
  | Some u =>
      let u' := {| user_id := user_id u;
                   email := set_if_truthy (uu_email req) (email u);
                   username := username u; hashed_password := hashed_password u;
                   first_name := set_opt_if_truthy (uu_first_name req) (first_name u);
                   last_name := set_opt_if_truthy (uu_last_name req) (last_name u);
                   desired_name := set_opt_if_not_none (uu_desired_name req) (desired_name u);
                   phone := set_opt_if_not_none (uu_phone req) (phone u);
                   is_active := is_active u;
                   role := set_if_truthy (uu_role req) (role u);
                   is_approved := is_approved u; approved_at := approved_at u;
                   approved_by_id := approved_by_id u;
                   approval_notes := approval_notes u;
                   is_rejected := is_rejected u; rejected_at := rejected_at u;
                   rejected_by_id := rejected_by_id u;
                   rejection_reason := rejection_reason u;
                   registered_date := registered_date u;
                   password_reset_token := password_reset_token u;
                   password_reset_expires := password_reset_expires u;
                   password_reset_requested_at := password_reset_requested_at u |} in
      if existsb (fun v => negb (Z.eqb (user_id v) uid) && String.eqb (email v) (email u'))%bool db
      then (HTTPError 409 "User with this email already exists", db)
      else (Ok u', db_update db u')
  end.

(** [int(v)] on the token's [sub] claim ([None] for [TypeError] or
    [ValueError]). *)
Definition py_int (v : pyval) : option Z :=
  match v with
  | PInt z => Some z
  | PBool b => Some (if b then 1 else 0)
  | PStr s => option_map Z.of_int (NilZero.int_of_string s)
  | PNone => None
  end.

(** [POST /users/{user_id}/change-password], given [get_current_user]'s
    dictionary; [salt] is the salt [hash_password] draws. *)
Definition change_password (db : Db) (uid : Z) (current_password new_password : string)
  (current_user : dict) (salt : string) : http_result unit * Db :=
  match dict_get current_user "sub" with
  | PNone => (HTTPError HTTP_401_UNAUTHORIZED "Invalid token", db)
  | sub =>
      match py_int sub with
      | None => (HTTPError HTTP_401_UNAUTHORIZED "Invalid token", db)
      | Some auth_user_id =>
          if negb (Z.eqb auth_user_id uid) then
            (HTTPError HTTP_403_FORBIDDEN "You can only change your own password", db)
          else match get_user_by_id db uid with
          | None => (HTTPError HTTP_404_NOT_FOUND ("User " ++ str_of_Z uid ++ " not found"), db)
          | Some u =>
              if negb (verify_password current_password (hashed_password u)) then
                (HTTPError HTTP_400_BAD_REQUEST "Current password is incorrect", db)
              else if negb (fst (validate new_password)) then
                (HTTPError HTTP_400_BAD_REQUEST "New password does not meet requirements", db)
              else if verify_password new_password (hashed_password u) then
                (HTTPError HTTP_400_BAD_REQUEST
                   "New password cannot be the same as current password", db)
              else
              let u' := {| user_id := user_id u; email := email u;
                           username := username u;
                           hashed_password := pwd_hash salt new_password;
                           first_name := first_name u; last_name := last_name u;
                           desired_name := desired_name u; phone := phone u;
                           is_active := is_active u; role := role u;
                           is_approved := is_approved u; approved_at := approved_at u;
                           approved_by_id := approved_by_id u;
                           approval_notes := approval_notes u;
                           is_rejected := is_rejected u; rejected_at := rejected_at u;
                           rejected_by_id := rejected_by_id u;
                           rejection_reason := rejection_reason u;
                           registered_date := registered_date u;
                           password_reset_token := password_reset_token u;
                           password_reset_expires := password_reset_expires u;
                           password_reset_requested_at := password_reset_requested_at u |} in
              (Ok tt, db_update db u')
          end
      end
  end.

(* ------------------------------------------------------------------ *)
(** ** The account store as a state machine *)

(** Every endpoint that writes to the [users] table, with its inputs
    (endpoints that only read it leave it unchanged). *)
Inductive Op : Type :=
| OpRegister (salt e n password fn ln : string)
| OpApproveUser (token : jwt_token) (now uid : Z) (notes : option string) (r : string)
| OpRejectUser (token : jwt_token) (now uid : Z) (reason : string)
| OpCreateEducator (token : jwt_token) (now : Z) (req : CreateEducatorRequest) (salt : string)
| OpUpdateEducator (token : jwt_token) (now uid : Z) (req : UpdateEducatorRequest)
| OpDeleteEducator (token : jwt_token) (now uid : Z)
| OpForgotPassword (e : string) (now : Z) (reset_tok : string) (env : ForgotEnv)
| OpResetPassword (ticket new_password : string) (now : Z) (salt : string)
| OpUpdateUser (uid : Z) (req : UserUpdate)
| OpChangePassword (token : jwt_token) (now uid : Z) (cur new salt : string).

Definition run_op (db : Db) (op : Op) : Db :=
  match op with
  | OpRegister salt e n p fn ln => snd (register db salt e n p fn ln)
  | OpApproveUser t now uid notes r => snd (approve_user_endpoint db t now uid notes r)
  | OpRejectUser t now uid reason =>
      snd (admin_guarded db t now (fun cu => reject_user db uid reason cu now))
  | OpCreateEducator t now req salt =>
      snd (admin_guarded db t now (fun cu => create_educator db req cu now salt))
  | OpUpdateEducator t now uid req =>
      snd (admin_guarded db t now (fun _ => update_educator db uid req))
  | OpDeleteEducator t now uid =>
      snd (admin_guarded db t now (fun _ => delete_educator db uid))
  | OpForgotPassword e now tok env => snd (forgot_password db e now tok env)
  | OpResetPassword ticket p now salt => snd (reset_password db ticket p now salt)
  | OpUpdateUser uid req => snd (update_user db uid req)
  | OpChangePassword t now uid cur new salt =>
      match get_current_user t now with
      | Ok cu => snd (change_password db uid cur new cu salt)
      | HTTPError _ _ => db
      end
  end.

(** The spec's account invariant: role = pending implies not approved. *)
Definition pending_not_approved (u : User) : bool :=
  implb (String.eqb (role u) "pending") (negb (is_approved u)).

Definition db_inv (db : Db) : Prop := forall u, In u db -> pending_not_approved u = true.

(* ------------------------------------------------------------------ *)
(** ** [routers/auth.py]: the admin listings *)

(** The [.filter(...)] of [GET /auth/admin/pending-users]. *)
Definition pending_users_filter (u : User) : bool :=
  (String.eqb (role u) (role_value PENDING) && Bool.eqb (is_approved u) false
   && Bool.eqb (is_rejected u) false)%bool.

(** [GET /auth/admin/pending-users], given the guard's dictionary (which it
    does not read): the [count] and the rows of [.all()] in store order;
    each row is then turned into a dictionary of its columns. *)
Definition get_pending_users (db : Db) : nat * list User :=
  let pending_users := filter pending_users_filter db in
  (List.length pending_users, pending_users).

(** The [.filter(...)] of [GET /auth/admin/educators]. *)
Definition educators_filter (u : User) : bool :=
  (existsb (String.eqb (role u)) [role_value TEACHER; role_value PARAEDUCATOR]
   && Bool.eqb (is_approved u) true)%bool.

(** [GET /auth/admin/educators], given the guard's dictionary. *)
Definition get_educators (db : Db) : nat * list User :=
  let educators := filter educators_filter db in
  (List.length educators, educators).

(** The [.filter(...)] of [GET /auth/admin/approved-users-recent]: a NULL
    [registered_date] satisfies no comparison. *)
Definition recently_approved_filter (seven_days_ago : Z) (u : User) : bool :=
  (Bool.eqb (is_approved u) true &&
   match registered_date u with Some d => Z.leb seven_days_ago d | None => false end &&
   match registered_date u with Some _ => true | None => false end)%bool.

Definition registered_key (u : User) : Z :=
  match registered_date u with Some d => d | None => 0 end.

(** [.order_by(User.registered_date.desc())] as an insertion sort, newest
    first. The database orders rows with equal dates as it likes; here the
    later row of the store comes first. *)
Fixpoint insert_registered_desc (u : User) (l : list User) : list User :=
  match l with
  | [] => [u]
  | v :: l' =>
      if Z.ltb (registered_key v) (registered_key u) then u :: l
      else v :: insert_registered_desc u l'
  end.

Definition order_by_registered_desc (l : list User) : list User :=
  fold_right insert_registered_desc [] l.

(** [GET /auth/admin/approved-users-recent], given the guard's dictionary. *)
Definition get_approved_users_recent (db : Db) (now : Z) : nat * list User :=
  let seven_days_ago := now - 7 * 86400 in
  let approved_users :=
    order_by_registered_desc (filter (recently_approved_filter seven_days_ago) db) in
  (List.length approved_users, approved_users).

(** [POST /users/{user_id}/change-password] with its
    [Depends(get_current_user)]. *)
Definition change_password_endpoint (db : Db) (token : jwt_token) (now uid : Z)
  (current_password new_password salt : string) : http_result unit * Db :=
  match get_current_user token now with
  | Ok current_user =>
      change_password db uid current_password new_password current_user salt
  | HTTPError c d => (HTTPError c d, db)
  end.

End Backend.

(* ------------------------------------------------------------------ *)
(** ** [routers/users.py] and [routers/auth.py]: profile images *)

(** A [bytes] value: its byte values, each in [0, 256). *)
Definition bytes := list Z.

(** The standard base64 alphabet of [binascii]. *)
Definition table_b2a_base64 : string :=
  "ABCDEFGHIJKLMNOPQRSTUVWXYZabcdefghijklmnopqrstuvwxyz0123456789+/".

Definition b2a_char (v : Z) : ascii :=
  match String.get (Z.to_nat v) table_b2a_base64 with
  | Some c => c
  | None => "000"%char
  end.

(** [base64.b64encode(s)] (standard alphabet, ['='] padding), three bytes
    at a time. *)
Fixpoint b64encode (bs : bytes) : string :=
  match bs with
  | b0 :: b1 :: b2 :: rest =>
      let leftchar := Z.lor (Z.lor (Z.shiftl b0 16) (Z.shiftl b1 8)) b2 in
      String (b2a_char (Z.land (Z.shiftr leftchar 18) 63))
      (String (b2a_char (Z.land (Z.shiftr leftchar 12) 63))
      (String (b2a_char (Z.land (Z.shiftr leftchar 6) 63))
      (String (b2a_char (Z.land leftchar 63))
      (b64encode rest))))
  | [b0; b1] =>
      let leftchar := Z.lor (Z.shiftl b0 16) (Z.shiftl b1 8) in
      String (b2a_char (Z.land (Z.shiftr leftchar 18) 63))
      (String (b2a_char (Z.land (Z.shiftr leftchar 12) 63))
      (String (b2a_char (Z.land (Z.shiftr leftchar 6) 63))
      "="))
  | [b0] =>
      let leftchar := Z.shiftl b0 16 in
      String (b2a_char (Z.land (Z.shiftr leftchar 18) 63))
      (String (b2a_char (Z.land (Z.shiftr leftchar 12) 63))
      "==")
  | [] => ""
  end.

(** [table_a2b_base64]: the value of a base64 character, 255 (that is,
    [-1] as an [unsigned char]) for any other byte. *)
Definition table_a2b_base64 (c : ascii) : Z :=
  let n := Z.of_nat (nat_of_ascii c) in
  if ascii_between "A" "Z" c then n - 65
  else if ascii_between "a" "z" c then n - 71
  else if ascii_between "0" "9" c then n + 4
  else if Ascii.eqb c "+" then 62
  else if Ascii.eqb c "/" then 63
  else 255.

(** The [binascii.Error]s of a non-strict [a2b_base64], and the
    [ValueError] of a [str] argument with a non-ASCII character. *)
Inductive b64_error : Type :=
| NonAsciiString
| DataCharsOneMoreThanMultipleOf4 (count : Z)
| IncorrectPadding.

(** The loop of [binascii.a2b_base64(s, strict_mode=False)]: characters
    outside the alphabet are skipped; an ['='] counts as padding once two
    data characters of the quad have been read, and a complete pad
    sequence ends the parse ([goto done]). [bin_data] is the output so
    far. *)
Fixpoint a2b_base64_loop (s : string) (quad_pos leftchar pads : Z) (bin_data : bytes)
  : bytes + b64_error :=
  match s with
  | EmptyString =>
      if Z.eqb quad_pos 0 then inl bin_data
      else if Z.eqb quad_pos 1 then
        inr (DataCharsOneMoreThanMultipleOf4
               (Z.of_nat (List.length bin_data) / 3 * 4 + 1))
      else inr IncorrectPadding
  | String c s' =>
      if Ascii.eqb c "=" then
        if Z.leb 2 quad_pos then
          let pads := pads + 1 in
          if Z.leb 4 (quad_pos + pads) then inl bin_data
          else a2b_base64_loop s' quad_pos leftchar pads bin_data
        else a2b_base64_loop s' quad_pos leftchar pads bin_data
      else
      let this_ch := table_a2b_base64 c in
      if Z.leb 64 this_ch then a2b_base64_loop s' quad_pos leftchar pads bin_data
      else
      let pads := 0 in
      if Z.eqb quad_pos 0 then
        a2b_base64_loop s' 1 this_ch pads bin_data
      else if Z.eqb quad_pos 1 then
        a2b_base64_loop s' 2 (Z.land this_ch 15) pads
          (bin_data ++ [Z.land (Z.lor (Z.shiftl leftchar 2) (Z.shiftr this_ch 4)) 255])%list
      else if Z.eqb quad_pos 2 then
        a2b_base64_loop s' 3 (Z.land this_ch 3) pads
          (bin_data ++ [Z.land (Z.lor (Z.shiftl leftchar 4) (Z.shiftr this_ch 2)) 255])%list
      else
        a2b_base64_loop s' 0 0 pads
          (bin_data ++ [Z.land (Z.lor (Z.shiftl leftchar 6) this_ch) 255])%list
  end.

(** [base64.b64decode(s)] for a [str] [s]: [s.encode("ascii")], then
    [binascii.a2b_base64(s, strict_mode=False)]. *)
Definition b64decode (s : string) : bytes + b64_error :=
  if str_exists (fun c => Nat.leb 128 (nat_of_ascii c)) s then inr NonAsciiString
  else a2b_base64_loop s 0 0 0 [].

(** [users._encode_profile_image(image_bytes)] ([.decode("utf-8")] of an
    ASCII [bytes] is the same text). *)
Definition users_encode_profile_image (image_bytes : option bytes) : option string :=
  match image_bytes with
  | None => None
  | Some b => Some (b64encode b)
  end.

(** The two [ValueError]s [users._decode_profile_image] raises. *)
Inductive image_error : Type :=
| ImageDataCannotBeEmpty
| InvalidBase64ImageData (e : b64_error).

(** [users._decode_profile_image(image_b64)] *)
Definition users_decode_profile_image (image_b64 : string) : bytes + image_error :=
  if String.eqb image_b64 "" then inr ImageDataCannotBeEmpty else
  match b64decode image_b64 with
  | inl b => inl b
  | inr e => inr (InvalidBase64ImageData e)
  end.

(** [auth._encode_profile_image(image_data)]: [if not image_data: return
    None]. *)
Definition auth_encode_profile_image (image_data : option bytes) : option string :=
  match image_data with
  | None => None
  | Some [] => None
  | Some b => Some (b64encode b)
  end.

(* ------------------------------------------------------------------ *)
(** ** Store-wide conditions *)

(** The [unique=True] index on [users.email], per account id. *)
Definition emails_unique (db : Db) : Prop :=
  forall v w, In v db -> In w db -> email v = email w -> user_id v = user_id w.

(** The [unique=True] index on [users.password_reset_token] for one
    ticket, per account id. *)
Definition ticket_unique (db : Db) (tok : string) : Prop :=
  forall v w, In v db -> In w db ->
  password_reset_token v = Some tok -> password_reset_token w = Some tok ->
  user_id v = user_id w.

(* ------------------------------------------------------------------ *)
(** ** Concrete data for the scenarios *)

Definition when (b : bool) (m : string) : list string := if b then [m] else [].

(** A concrete store for the scenarios below: one approved teacher. *)
Definition DEFAULT_SECRET_KEY := "your-secret-key-change-in-production".

Definition demo_hash (salt p : string) : string := "$argon2id$" ++ salt ++ "$" ++ p.

Definition demo_verify (p h : string) : bool :=
  existsb (fun salt => String.eqb h (demo_hash salt p)) ["s1"; "s2"].

Definition alice : User :=
  {| user_id := 1; email := "a@x.com"; username := "auser";
     hashed_password := demo_hash "s1" "Sup3r$ecretPass!";
     first_name := Some "Ann"; last_name := Some "Lee"; desired_name := None;
     phone := None; is_active := true; role := "teacher"; is_approved := true;
     approved_at := Some 50; approved_by_id := PNone; approval_notes := None;
     is_rejected := false; rejected_at := None; rejected_by_id := PNone;
     rejection_reason := None; registered_date := Some 50;
     password_reset_token := None; password_reset_expires := None;
     password_reset_requested_at := None |}.

Definition bob : User :=
  {| user_id := 2; email := "b@x.com"; username := "buser";
     hashed_password := demo_hash "s1" "Old$ecretPass1";
     first_name := Some "Bo"; last_name := Some "Ng"; desired_name := None;
     phone := None; is_active := true; role := "pending"; is_approved := false;
     approved_at := None; approved_by_id := PNone; approval_notes := None;
     is_rejected := false; rejected_at := None; rejected_by_id := PNone;
     rejection_reason := None; registered_date := None;
     password_reset_token := Some "tkt"; password_reset_expires := Some 100;
     password_reset_requested_at := Some 40 |}.

Definition NEW_PASSWORD := "N3w$ecretPass!".

Definition reset_ticket_dead (u : User) (now : Z) : Prop :=
  password_reset_expires u = None \/
  exists e, password_reset_expires u = Some e /\ e < now.

Definition dana : User :=
  {| user_id := 4; email := "d@x.com"; username := "dadmin";
     hashed_password := demo_hash "s1" "Adm1n$ecretPass";
     first_name := Some "Dana"; last_name := Some "Ro"; desired_name := None;
     phone := None; is_active := true; role := "admin"; is_approved := true;
     approved_at := Some 10; approved_by_id := PNone; approval_notes := None;
     is_rejected := false; rejected_at := None; rejected_by_id := PNone;
     rejection_reason := None; registered_date := Some 10;
     password_reset_token := None; password_reset_expires := None;
     password_reset_requested_at := None |}.

(** An account that admin 4 rejected at time 30. *)
Definition carol : User :=
  {| user_id := 3; email := "c@x.com"; username := "cuser";
     hashed_password := demo_hash "s1" "Car0l$ecretPass";
     first_name := Some "Cy"; last_name := Some "Mo"; desired_name := None;
     phone := None; is_active := false; role := "pending"; is_approved := false;
     approved_at := None; approved_by_id := PNone; approval_notes := None;
     is_rejected := true; rejected_at := Some 30; rejected_by_id := PInt 4;
     rejection_reason := Some "duplicate"; registered_date := None;
     password_reset_token := None; password_reset_expires := None;
     password_reset_requested_at := None |}.

(** [PUT /users/{user_id}] body that sets the role to ["pending"]. *)
Definition make_pending : UserUpdate :=
  {| uu_email := None; uu_first_name := None; uu_last_name := None;
     uu_role := Some "pending"; uu_desired_name := None; uu_phone := None |}.

(* ================================================================== *)
(** * Properties *)

(** ** Password policy *)

Example validate_short_example :
  validate_password "aB3!" "" =
  {| is_valid := false; errors := [msg_length]; strength_guide := STRENGTH_GUIDE |}.
Proof. reflexivity. Qed.

Example validate_username_example :
  is_valid (validate_password "Sup3r$ecretPass!" "ecret") = false.
Proof. reflexivity. Qed.

Lemma validate_errors (password : string) :
  snd (validate password) =
  (when (Nat.ltb (String.length password) MIN_LENGTH) msg_length ++
   when (negb (str_exists is_upper password)) msg_upper ++
   when (negb (str_exists is_lower password)) msg_lower ++
   when (negb (str_exists is_digit password)) msg_digit ++
   when (negb (str_exists is_special password)) msg_special)%list.
Proof.
  unfold validate, when.
  destruct (Nat.ltb _ _), (str_exists is_upper _), (str_exists is_lower _),
    (str_exists is_digit _), (str_exists is_special _); reflexivity.
Qed.

Lemma validate_valid (password : string) :
  fst (validate password) = true <-> snd (validate password) = [].
Proof.
  unfold validate; simpl.
  destruct (Nat.ltb _ _), (str_exists is_upper _), (str_exists is_lower _),
    (str_exists is_digit _), (str_exists is_special _); simpl;
    split; intro H; (reflexivity || discriminate).
Qed.

Lemma validate_password_errors (password username : string) :
  errors (validate_password password username) =
  (snd (validate password) ++
   when (negb (String.eqb username "") &&
         contains (lower username) (lower password)) msg_username)%list.
Proof.
  unfold validate_password, when.
  destruct (validate password) as [v errs]; simpl.
  destruct (_ && _)%bool; simpl; [reflexivity|].
  rewrite app_nil_r; reflexivity.
Qed.

Lemma validate_password_is_valid (password username : string) :
  is_valid (validate_password password username) =
  (fst (validate password) &&
   negb (negb (String.eqb username "") &&
         contains (lower username) (lower password)))%bool.
Proof.
  unfold validate_password.
  destruct (validate password) as [v errs]; simpl.
  destruct (_ && _)%bool; simpl; symmetry; [apply andb_false_r | apply andb_true_r].
Qed.

Lemma in_when (m m' : string) (b : bool) : In m (when b m') <-> b = true /\ m = m'.
Proof. destruct b; simpl; intuition congruence. Qed.

Lemma validate_password_valid_iff (password username : string) :
  is_valid (validate_password password username) = true <->
  errors (validate_password password username) = [].
Proof.
  rewrite validate_password_is_valid, validate_password_errors.
  pose proof (validate_valid password) as Hv.
  unfold when;
    destruct (negb (String.eqb username "") && contains (lower username) (lower password))%bool;
    cbn [negb].
  - rewrite andb_false_r. split; intro H; [discriminate|].
    destruct (snd (validate password)); discriminate.
  - rewrite andb_true_r, app_nil_r. exact Hv.
Qed.

Ltac msgs_distinct :=
  unfold msg_length, msg_upper, msg_lower, msg_digit, msg_special,
    msg_username, SPECIAL_CHARS; simpl; discriminate.

Ltac errors_as_whens :=
  rewrite validate_password_errors, validate_errors;
  repeat rewrite in_app_iff; repeat rewrite in_when.

Ltac only_match :=
  intros HIn; repeat destruct HIn as [HIn|HIn];
  destruct HIn as [Hb Hm]; try (exfalso; revert Hm; msgs_distinct).

(** C6. [validate_password] checks every rule on its own and reports the
    message of each violated rule and of no other: length below 12, no
    uppercase, no lowercase, no digit, no special character, and (for a
    non-empty username) the password containing the username
    case-insensitively; in particular a password shorter than 12 characters
    always gets the length message. [is_valid] is true iff no message was
    reported. *)
Theorem validate_password_reports_every_violation (password username : string) :
  let r := validate_password password username in
  (In msg_length (errors r) <-> (String.length password < MIN_LENGTH)%nat) /\
  (In msg_upper (errors r) <-> str_exists is_upper password = false) /\
  (In msg_lower (errors r) <-> str_exists is_lower password = false) /\
  (In msg_digit (errors r) <-> str_exists is_digit password = false) /\
  (In msg_special (errors r) <-> str_exists is_special password = false) /\
  (In msg_username (errors r) <->
     username <> "" /\ contains (lower username) (lower password) = true) /\
  (is_valid r = true <-> errors r = []).
Proof.
  cbv zeta.
  split; [|split; [|split; [|split; [|split; [|split]]]]];
    try apply validate_password_valid_iff; errors_as_whens; split.
  - only_match. apply Nat.ltb_lt; exact Hb.
  - intro HP. left; left. split; [apply Nat.ltb_lt; exact HP | reflexivity].
  - only_match. apply negb_true_iff; exact Hb.
  - intro HP. left; right; left. split; [rewrite HP; reflexivity | reflexivity].
  - only_match. apply negb_true_iff; exact Hb.
  - intro HP. left; do 2 right; left. split; [rewrite HP; reflexivity | reflexivity].
  - only_match. apply negb_true_iff; exact Hb.
  - intro HP. left; do 3 right; left. split; [rewrite HP; reflexivity | reflexivity].
  - only_match. apply negb_true_iff; exact Hb.
  - intro HP. left; do 4 right. split; [rewrite HP; reflexivity | reflexivity].
  - only_match. apply andb_true_iff in Hb; destruct Hb as [Hn Hc].
    split; [|exact Hc]. apply negb_true_iff, String.eqb_neq in Hn; exact Hn.
  - intros [Hn Hc]. right. split; [|reflexivity].
    apply String.eqb_neq in Hn. rewrite Hn, Hc; reflexivity.
Qed.

(** ** Access guard *)

Lemma pyval_eqb_spec (a b : pyval) : pyval_eqb a b = true <-> a = b.
Proof.
  destruct a, b; simpl; split; intro H; try discriminate; try reflexivity.
  - f_equal; apply Z.eqb_eq; exact H.
  - injection H as ->; apply Z.eqb_refl.
  - f_equal; apply String.eqb_eq; exact H.
  - injection H as ->; apply String.eqb_refl.
  - f_equal; apply Bool.eqb_prop; exact H.
  - injection H as ->; apply Bool.eqb_reflx.
Qed.

Lemma pyval_eqb_false (a b : pyval) : pyval_eqb a b = false <-> a <> b.
Proof.
  rewrite <- pyval_eqb_spec. destruct (pyval_eqb a b); intuition congruence.
Qed.

Lemma get_current_user_type (key : string) (token : jwt_token) (now : Z) (cu : dict) :
  get_current_user key token now = Ok cu -> dict_get cu "type" = PStr "access".
Proof.
  unfold get_current_user.
  destruct (verify_token key token now) as [p|[]]; try discriminate.
  destruct (pyval_eqb (dict_get p "type") (PStr "access")) eqn:E; simpl;
    intro H; inversion H; subst. apply pyval_eqb_spec; exact E.
Qed.

(** C7. Behind [Depends(require_role(...))]: a token that verifies but whose
    [type] is not ["access"] (a refresh token, say) is refused with 401
    before any role check; for a verified access token, the role
    ["superuser"] is admitted whatever the allowed set, a role of the
    allowed set is admitted, and any other role is refused with 403. *)
Theorem access_guard_decisions (SECRET_KEY : string) (allowed : list Role)
  (token : jwt_token) (now : Z) :
  (forall payload,
     verify_token SECRET_KEY token now = inl payload ->
     dict_get payload "type" <> PStr "access" ->
     get_current_user SECRET_KEY token now =
       HTTPError HTTP_401_UNAUTHORIZED "Invalid token type" /\
     role_guard SECRET_KEY allowed token now =
       HTTPError HTTP_401_UNAUTHORIZED "Invalid token type") /\
  (forall cu,
     get_current_user SECRET_KEY token now = Ok cu ->
     dict_get cu "type" = PStr "access" /\
     (dict_get cu "role" = PStr "superuser" ->
        role_guard SECRET_KEY allowed token now = Ok cu) /\
     (forall r, In r allowed -> dict_get cu "role" = PStr (role_value r) ->
        role_guard SECRET_KEY allowed token now = Ok cu) /\
     (dict_get cu "role" <> PStr "superuser" ->
      (forall r, In r allowed -> dict_get cu "role" <> PStr (role_value r)) ->
      exists d, role_guard SECRET_KEY allowed token now =
                HTTPError HTTP_403_FORBIDDEN d)).
Proof.
  split.
  - intros payload Hv Ht.
    assert (Hg : get_current_user SECRET_KEY token now =
                 HTTPError HTTP_401_UNAUTHORIZED "Invalid token type").
    { unfold get_current_user. rewrite Hv.
      apply pyval_eqb_false in Ht. rewrite Ht. reflexivity. }
    split; [exact Hg|]. unfold role_guard. rewrite Hg. reflexivity.
  - intros cu Hg. split; [eapply get_current_user_type; exact Hg|].
    unfold role_guard; rewrite Hg; unfold require_role.
    split; [|split].
    + intros Hr. rewrite Hr. reflexivity.
    + intros r Hin Hr. rewrite Hr.
      destruct (pyval_eqb (PStr (role_value r)) (PStr (role_value SUPERUSER)));
        [reflexivity|].
      assert (Hex : existsb (fun v => pyval_eqb (PStr (role_value r)) (PStr v))
                      (map role_value allowed) = true).
      { apply existsb_exists. exists (role_value r). split.
        - apply in_map; exact Hin.
        - apply pyval_eqb_spec; reflexivity. }
      rewrite Hex. reflexivity.
    + intros Hns Hna.
      assert (Hs : pyval_eqb (dict_get cu "role") (PStr (role_value SUPERUSER)) = false)
        by (apply pyval_eqb_false; exact Hns).
      rewrite Hs.
      assert (Hex : existsb (fun v => pyval_eqb (dict_get cu "role") (PStr v))
                      (map role_value allowed) = false).
      { destruct (existsb _ _) eqn:E; [|reflexivity].
        apply existsb_exists in E. destruct E as [v [Hin Hv]].
        apply in_map_iff in Hin. destruct Hin as [r [<- Hin]].
        apply pyval_eqb_spec in Hv. exfalso; exact (Hna r Hin Hv). }
      rewrite Hex. eexists; reflexivity.
Qed.

(** ** Token claims and the handlers that read ["sub"] *)

Lemma jwt_decode_claims (c : dict) (k key : string) (now : Z) (c' : dict) :
  jwt_decode (Signed c k) key now = inl c' -> c' = c.
Proof.
  simpl. destruct (negb (String.eqb k key)); [discriminate|].
  destruct (jwt_validate_iat c now); [discriminate|].
  destruct (jwt_validate_exp c now); [discriminate|].
  intro H; injection H as <-; reflexivity.
Qed.

Lemma get_current_user_claims (key : string) (c : dict) (k : string) (now : Z) (cu : dict) :
  get_current_user key (Signed c k) now = Ok cu -> cu = c.
Proof.
  unfold get_current_user, verify_token.
  destruct (jwt_decode (Signed c k) key now) as [p|[]] eqn:E; try discriminate.
  apply jwt_decode_claims in E; subst.
  destruct (negb _); [discriminate|]. intro H; injection H as <-; reflexivity.
Qed.

Lemma get_current_user_error_401 (key : string) (t : jwt_token) (now : Z) (code : Z) (d : string) :
  get_current_user key t now = HTTPError code d -> code = HTTP_401_UNAUTHORIZED.
Proof.
  unfold get_current_user.
  destruct (verify_token key t now) as [p|[]]; [destruct (negb _)|..];
    intro H; inversion H; reflexivity.
Qed.

Lemma require_role_same (allowed : list Role) (cu cu' : dict) :
  require_role allowed cu = Ok cu' -> cu' = cu.
Proof.
  unfold require_role.
  destruct (pyval_eqb _ _); [intro H; injection H as <-; reflexivity|].
  destruct (negb _); [discriminate|]. intro H; injection H as <-; reflexivity.
Qed.

Lemma access_token_claims (key : string) (p : TokenPayload) (now : Z) :
  exists c, create_access_token key p now = Signed c key /\
            dict_get c "user_id" = PInt (tp_user_id p) /\
            dict_get c "type" = PStr "access" /\
            dict_get c "sub" = PNone.
Proof. eexists; split; [reflexivity|]. repeat split. Qed.

(** C2. An access token made by [create_access_token] carries the subject
    under ["user_id"] and has no ["sub"] claim; so [GET /auth/me], which
    reads ["sub"], answers 401 for every such token at every time, and
    [approve_user] called with such a token stores [None] as
    [approved_by_id]. *)
Theorem access_token_lacks_sub (SECRET_KEY : string) (p : TokenPayload)
  (now now' : Z) (db : Db) (uid : Z) (notes : option string) (req_role : string) :
  let t := create_access_token SECRET_KEY p now in
  (exists c, t = Signed c SECRET_KEY /\
             dict_get c "user_id" = PInt (tp_user_id p) /\
             dict_get c "sub" = PNone) /\
  (exists d, get_me_endpoint SECRET_KEY db t now' = HTTPError HTTP_401_UNAUTHORIZED d) /\
  match fst (approve_user_endpoint SECRET_KEY db t now' uid notes req_role) with
  | Ok u => approved_by_id u = PNone
  | HTTPError _ _ => True
  end.
Proof.
  cbv zeta.
  destruct (access_token_claims SECRET_KEY p now) as [c [Ht [Hid [Hty Hsub]]]].
  rewrite Ht. split; [exists c; auto|]. split.
  - unfold get_me_endpoint.
    destruct (get_current_user SECRET_KEY (Signed c SECRET_KEY) now') as [cu|code d] eqn:E.
    + apply get_current_user_claims in E; subst cu.
      unfold get_me. rewrite Hsub. eexists; reflexivity.
    + apply get_current_user_error_401 in E; subst code. eexists; reflexivity.
  - unfold approve_user_endpoint, role_guard.
    destruct (get_current_user SECRET_KEY (Signed c SECRET_KEY) now') as [cu|code d] eqn:E;
      [|exact I].
    apply get_current_user_claims in E; subst cu.
    destruct (require_role ADMIN_ROLES c) as [cu|code d] eqn:Er; [|exact I].
    apply require_role_same in Er; subst cu.
    unfold approve_user.
    destruct (get_user_by_id db uid) as [u|]; [|exact I].
    destruct (Role_of_string req_role) as [[]|]; simpl; try exact I; exact Hsub.
Qed.

(** C1 (failing). [refresh_token] looks the subject up under ["sub"],
    while [create_refresh_token] stores it under ["user_id"]: every token
    [create_refresh_token] makes is answered with 401, at any time and
    whatever the store holds, approved accounts included. *)
Theorem refresh_token_rejects_issued_refresh_tokens (SECRET_KEY : string)
  (db : Db) (p : TokenPayload) (now now' : Z) :
  refresh_token SECRET_KEY db (create_refresh_token SECRET_KEY p now) now' =
  HTTPError HTTP_401_UNAUTHORIZED msg_refresh_failed.
Proof.
  unfold refresh_token.
  destruct (verify_token SECRET_KEY (create_refresh_token SECRET_KEY p now) now')
    as [c|e] eqn:E; [|reflexivity].
  unfold verify_token, create_refresh_token, jwt_encode in E.
  apply jwt_decode_claims in E; subst c. reflexivity.
Qed.

(** C1 at a concrete input: the approved teacher logs in at time 100 and
    presents, at time 200, a refresh token issued for her at time 100. *)
Lemma refresh_token_demo :
  login DEFAULT_SECRET_KEY demo_verify [alice] (Some "a@x.com") None
    "Sup3r$ecretPass!" 100 <> HTTPError HTTP_401_UNAUTHORIZED
                                "Invalid email/username or password" /\
  refresh_token DEFAULT_SECRET_KEY [alice]
    (create_refresh_token DEFAULT_SECRET_KEY (payload_of_user alice TEACHER) 100) 200 =
  HTTPError HTTP_401_UNAUTHORIZED msg_refresh_failed.
Proof. split; [discriminate | reflexivity]. Qed.

(** C3 (failing). [login] hands the username to [authenticate_user], which
    looks it up as an email only: the teacher "auser" is refused with the
    generic 401 when she gives her username and correct password, and
    admitted when she gives her email. *)
Theorem login_by_username_refused :
  login DEFAULT_SECRET_KEY demo_verify [alice] None (Some "auser")
    "Sup3r$ecretPass!" 100 =
  HTTPError HTTP_401_UNAUTHORIZED "Invalid email/username or password" /\
  login DEFAULT_SECRET_KEY demo_verify [alice] (Some "a@x.com") None
    "Sup3r$ecretPass!" 100 =
  Ok (create_access_token DEFAULT_SECRET_KEY (payload_of_user alice TEACHER) 100, alice).
Proof. split; reflexivity. Qed.

(** ** Password reset *)

Example new_password_valid : is_valid (validate_password NEW_PASSWORD "") = true.
Proof. reflexivity. Qed.

(** C4 (as written, refuted). The ticket of [bob] expires at time 100: a
    reset at time 100 succeeds rather than failing, and a reset at time
    101 fails with a message other than the unknown-ticket one. *)
Lemma reset_password_at_expiry_accepted :
  (exists r, fst (reset_password demo_hash [alice; bob] "tkt" NEW_PASSWORD 100 "s2") = Ok r) /\
  fst (reset_password demo_hash [alice; bob] "tkt" NEW_PASSWORD 101 "s2") =
    HTTPError HTTP_400_BAD_REQUEST msg_reset_expired /\
  msg_reset_expired <> msg_reset_invalid.
Proof.
  split; [eexists; reflexivity|]. split; [reflexivity|].
  unfold msg_reset_expired, msg_reset_invalid; discriminate.
Qed.

(** C4 (amended). With a new password that passes the policy,
    [reset_password] fails with 400 iff no account holds the ticket, or
    its stored expiry is null, or the stored expiry is strictly before
    [now] (an expiry equal to [now] is accepted). An unknown ticket gets
    [msg_reset_invalid]; a null or past expiry gets [msg_reset_expired].
    On success the account holding the ticket is rewritten with the new
    password's digest and with ticket, expiry and requested-at cleared. *)
Theorem reset_password_contract (pwd_hash : string -> string -> string)
  (db : Db) (ticket new_password : string) (now : Z) (salt : string)
  (Hvalid : is_valid (validate_password new_password "") = true) :
  let res := reset_password pwd_hash db ticket new_password now salt in
  ((exists d, fst res = HTTPError HTTP_400_BAD_REQUEST d) <->
   get_user_by_reset_token db ticket = None \/
   exists u, get_user_by_reset_token db ticket = Some u /\ reset_ticket_dead u now) /\
  (get_user_by_reset_token db ticket = None ->
   fst res = HTTPError HTTP_400_BAD_REQUEST msg_reset_invalid) /\
  (forall u, get_user_by_reset_token db ticket = Some u -> reset_ticket_dead u now ->
   fst res = HTTPError HTTP_400_BAD_REQUEST msg_reset_expired) /\
  (forall r, fst res = Ok r ->
   exists u u', get_user_by_reset_token db ticket = Some u /\
     snd res = db_update db u' /\
     user_id u' = user_id u /\
     hashed_password u' = pwd_hash salt new_password /\
     password_reset_token u' = None /\
     password_reset_expires u' = None /\
     password_reset_requested_at u' = None).
Proof.
  cbv zeta. unfold reset_password. rewrite Hvalid. cbn [negb].
  destruct (get_user_by_reset_token db ticket) as [u|] eqn:Hu.
  - destruct (password_reset_expires u) as [e|] eqn:He.
    + destruct (Z.ltb_spec e now) as [Hlt|Hge].
      * split; [|split; [|split]].
        -- split; [intros _; right; exists u; split; [reflexivity|right; exists e; auto]|].
           intros _; eexists; reflexivity.
        -- discriminate.
        -- intros u0 Hu0 _; reflexivity.
        -- discriminate.
      * split; [|split; [|split]].
        -- split; [intros [d Hd]; discriminate|].
           intros [Hn|[u0 [Hu0 [Hn|[e0 [He0 Hlt]]]]]]; [discriminate| |];
             injection Hu0 as <-; rewrite He in *; [discriminate|].
           injection He0 as <-; lia.
        -- discriminate.
        -- intros u0 Hu0 [Hn|[e0 [He0 Hlt]]]; injection Hu0 as <-;
             rewrite He in *; [discriminate|]. injection He0 as <-; lia.
        -- intros r _. eexists u, _. split; [reflexivity|]. split; [reflexivity|].
           repeat split.
    + split; [|split; [|split]].
      * split; [intros _; right; exists u; split; [reflexivity|left; exact He]|].
        intros _; eexists; reflexivity.
      * discriminate.
      * intros; reflexivity.
      * discriminate.
  - split; [|split; [|split]].
    + split; [intros _; left; reflexivity|]. intros _; eexists; reflexivity.
    + intros _; reflexivity.
    + discriminate.
    + discriminate.
Qed.

(** C10. Every failing [reset_password] call (policy violation, unknown
    ticket, null expiry, expired ticket) leaves the store as it was; in
    particular an expired ticket stays in place and every later attempt
    with it, at any later time, is refused again with the same 400. *)
Theorem reset_password_failure_keeps_store (pwd_hash : string -> string -> string)
  (db : Db) (ticket new_password : string) (now : Z) (salt : string)
  (code : Z) (d : string)
  (Hfail : fst (reset_password pwd_hash db ticket new_password now salt) = HTTPError code d) :
  snd (reset_password pwd_hash db ticket new_password now salt) = db /\
  forall u e, get_user_by_reset_token db ticket = Some u ->
    password_reset_expires u = Some e -> e < now ->
    forall new_password' now' salt', now <= now' ->
    is_valid (validate_password new_password' "") = true ->
    reset_password pwd_hash db ticket new_password' now' salt' =
    (HTTPError HTTP_400_BAD_REQUEST msg_reset_expired, db).
Proof.
  split.
  - revert Hfail. unfold reset_password.
    destruct (negb (is_valid _)); [reflexivity|].
    destruct (get_user_by_reset_token db ticket) as [u|]; [|reflexivity].
    destruct (password_reset_expires u) as [e|]; [|reflexivity].
    destruct (Z.ltb e now); [reflexivity|]. discriminate.
  - intros u e Hu He Hlt new_password' now' salt' Hle Hvalid.
    unfold reset_password. rewrite Hvalid. cbn [negb]. rewrite Hu, He.
    destruct (Z.ltb_spec e now'); [reflexivity|lia].
Qed.

(** ** Approval *)

(** C5 (failing). Admin 4 logs in at time 100 and approves account 3 as a
    teacher at time 110 with the access token login returned: the row is
    approved as a teacher, but [approved_by_id] is [None] rather than 4, and
    [rejected_at] / [rejected_by_id] keep the earlier rejection. *)
Theorem approve_user_demo :
  exists t u db',
    login DEFAULT_SECRET_KEY demo_verify [dana; carol] (Some "d@x.com") None
      "Adm1n$ecretPass" 100 = Ok (t, dana) /\
    approve_user_endpoint DEFAULT_SECRET_KEY [dana; carol] t 110 3 (Some "ok") "teacher"
      = (Ok u, db') /\
    is_approved u = true /\ role u = "teacher" /\ is_rejected u = false /\
    approved_by_id u = PNone /\
    rejected_at u = Some 30 /\ rejected_by_id u = PInt 4.
Proof. do 3 eexists. split; [reflexivity|]. split; [reflexivity|]. repeat split. Qed.

(** ** Account enumeration *)

(** C8 (as written, refuted). [POST /auth/check-email] answers [true] for
    a registered address and [false] for an unregistered one. *)
Lemma check_email_reveals_registration :
  check_email [alice] "a@x.com" = true /\ check_email [alice] "z@x.com" = false.
Proof. split; reflexivity. Qed.

Lemma check_email_iff (db : Db) (e : string) :
  check_email db e = true <-> e <> "" /\ exists u, In u db /\ email u = e.
Proof.
  unfold check_email, user_exists.
  destruct (String.eqb_spec e "") as [Heq|Hne]; cbn [negb].
  - split; [discriminate|]. intros [H _]; contradiction.
  - unfold get_user_by_email.
    destruct (find (fun u => String.eqb (email u) e) db) as [u|] eqn:Hf; split.
    + intros _. apply find_some in Hf. destruct Hf as [Hin Hu].
      split; [exact Hne|]. exists u; split; [exact Hin|]. apply String.eqb_eq; exact Hu.
    + intros _; reflexivity.
    + discriminate.
    + intros [_ [u [Hin Hu]]]. eapply find_none in Hf; [|exact Hin].
      rewrite Hu, String.eqb_refl in Hf. discriminate.
Qed.

(** C8 (amended). [forgot_password] answers the generic message together
    with the requested address, whatever the store holds (registered
    address or not) and whatever fails inside (expiry setting, commit,
    email service); [check_email], in contrast, answers [true] exactly
    for the non-empty addresses some account holds. *)
Theorem forgot_password_response_uniform (db : Db) (e : string) (now : Z)
  (reset_tok : string) (env : ForgotEnv) :
  fst (forgot_password db e now reset_tok env) =
    {| fp_message := msg_forgot; fp_email := e |} /\
  (check_email db e = true <-> e <> "" /\ exists u, In u db /\ email u = e).
Proof.
  split; [|apply check_email_iff].
  unfold forgot_password.
  destruct (get_user_by_email db e); [|reflexivity].
  destruct (env_expiry_hours env); [|reflexivity].
  destruct (env_commit_fails env); [reflexivity|].
  destruct (env_email_raises env); reflexivity.
Qed.

(** ** Account invariant: role = pending implies not approved *)

Lemma db_update_inv (db : Db) (u : User) :
  db_inv db -> pending_not_approved u = true -> db_inv (db_update db u).
Proof.
  intros Hdb Hu v Hin. unfold db_update in Hin.
  apply in_map_iff in Hin. destruct Hin as [w [<- Hw]].
  destruct (Z.eqb (user_id w) (user_id u)); [exact Hu | exact (Hdb w Hw)].
Qed.

Lemma find_in (f : User -> bool) (db : Db) (u : User) : find f db = Some u -> In u db.
Proof. intro H. apply find_some in H. exact (proj1 H). Qed.

Lemma pending_not_approved_same (u u' : User) :
  role u' = role u -> is_approved u' = is_approved u ->
  pending_not_approved u' = pending_not_approved u.
Proof. intros Hr Ha. unfold pending_not_approved. rewrite Hr, Ha. reflexivity. Qed.

Lemma pending_not_approved_role (u : User) :
  role u <> "pending" -> pending_not_approved u = true.
Proof.
  intro H. unfold pending_not_approved.
  destruct (String.eqb_spec (role u) "pending"); [contradiction | reflexivity].
Qed.

Ltac keep_status Hdb :=
  apply db_update_inv; [exact Hdb|];
  match goal with
  | H : find _ _ = Some ?u |- pending_not_approved _ = true =>
      rewrite (pending_not_approved_same u); [exact (Hdb u (find_in _ _ _ H))|reflexivity|reflexivity]
  end.

Lemma inv_register pwd_hash db salt e n p fn ln :
  db_inv db -> db_inv (snd (register pwd_hash db salt e n p fn ln)).
Proof.
  intro Hdb. unfold register.
  destruct (negb _); [exact Hdb|]. destruct (user_exists _ _ _); [exact Hdb|].
  destruct (match get_user_by_username db n with Some _ => true | None => false end);
    [exact Hdb|].
  simpl. exact Hdb.
Qed.

Lemma inv_forgot db e now tok env :
  db_inv db -> db_inv (snd (forgot_password db e now tok env)).
Proof.
  intro Hdb. unfold forgot_password.
  destruct (get_user_by_email db e) as [u|] eqn:Hu; [|exact Hdb].
  destruct (env_expiry_hours env); [|exact Hdb].
  destruct (env_commit_fails env); [exact Hdb|].
  unfold get_user_by_email in Hu.
  destruct (env_email_raises env); keep_status Hdb.
Qed.

Lemma inv_reset pwd_hash db t p now salt :
  db_inv db -> db_inv (snd (reset_password pwd_hash db t p now salt)).
Proof.
  intro Hdb. unfold reset_password.
  destruct (negb _); [exact Hdb|].
  destruct (get_user_by_reset_token db t) as [u|] eqn:Hu; [|exact Hdb].
  destruct (password_reset_expires u); [|exact Hdb].
  destruct (Z.ltb _ _); [exact Hdb|].
  unfold get_user_by_reset_token in Hu. keep_status Hdb.
Qed.

Lemma inv_approve key db t now uid notes r :
  db_inv db -> db_inv (snd (approve_user_endpoint key db t now uid notes r)).
Proof.
  intro Hdb. unfold approve_user_endpoint.
  destruct (role_guard key ADMIN_ROLES t now) as [cu|]; [|exact Hdb].
  unfold approve_user.
  destruct (get_user_by_id db uid) as [u|]; [|exact Hdb].
  destruct (Role_of_string r) as [rr|] eqn:Hr; [|exact Hdb].
  destruct rr; try exact Hdb; apply db_update_inv; try exact Hdb;
    apply pending_not_approved_role; simpl; discriminate.
Qed.

Lemma inv_reject key db t now uid reason :
  db_inv db ->
  db_inv (snd (admin_guarded key db t now (fun cu => reject_user db uid reason cu now))).
Proof.
  intro Hdb. unfold admin_guarded.
  destruct (role_guard key ADMIN_ROLES t now) as [cu|]; [|exact Hdb].
  unfold reject_user.
  destruct (get_user_by_id db uid) as [u|] eqn:Hu; [|exact Hdb].
  unfold get_user_by_id in Hu. simpl. keep_status Hdb.
Qed.

Lemma inv_create_educator key pwd_hash db t now req salt :
  db_inv db ->
  db_inv (snd (admin_guarded key db t now
                 (fun cu => create_educator pwd_hash db req cu now salt))).
Proof.
  intro Hdb. unfold admin_guarded.
  destruct (role_guard key ADMIN_ROLES t now) as [cu|]; [|exact Hdb].
  unfold create_educator.
  destruct (negb _) eqn:Hrole; [exact Hdb|].
  destruct (match get_user_by_email db (ce_email req) with Some _ => true | None => false end);
    [exact Hdb|].
  destruct (_ && _)%bool; [exact Hdb|].
  destruct (create_user pwd_hash _ db salt _ _ _ _ _ "pending" false)
    as [[]|[db1 nu]] eqn:Hc; try exact Hdb.
  (* the call passes keywords [create_user] does not declare *)
  unfold create_user in Hc. simpl in Hc. discriminate.
Qed.

Lemma inv_update_educator key db t now uid req :
  db_inv db ->
  db_inv (snd (admin_guarded key db t now (fun _ => update_educator db uid req))).
Proof.
  intro Hdb. unfold admin_guarded.
  destruct (role_guard key ADMIN_ROLES t now) as [cu|]; [|exact Hdb].
  unfold update_educator.
  destruct (get_user_by_id db uid) as [ed|] eqn:Hu; [|exact Hdb].
  destruct (truthy_opt_str (ue_role req) && _)%bool eqn:Hr; [exact Hdb|].
  destruct (truthy_opt_str (ue_email req) && _ && _)%bool; [exact Hdb|].
  destruct (truthy_opt_str (ue_username req) && _ && _)%bool; [exact Hdb|].
  simpl. apply db_update_inv; [exact Hdb|].
  unfold get_user_by_id in Hu. pose proof (Hdb ed (find_in _ _ _ Hu)) as Hed.
  destruct (ue_role req) as [r|] eqn:Hreq; simpl.
  - apply pending_not_approved_role; simpl.
    unfold truthy_opt_str in Hr. simpl in Hr.
    destruct (String.eqb_spec r "") as [->|Hne]; [discriminate|].
    simpl in Hr. intros ->. discriminate Hr.
  - exact Hed.
Qed.

Lemma inv_delete_educator key db t now uid :
  db_inv db ->
  db_inv (snd (admin_guarded key db t now (fun _ => delete_educator db uid))).
Proof.
  intro Hdb. unfold admin_guarded.
  destruct (role_guard key ADMIN_ROLES t now) as [cu|]; [|exact Hdb].
  unfold delete_educator.
  destruct (get_user_by_id db uid); [|exact Hdb].
  intros v Hv. apply filter_In in Hv. exact (Hdb v (proj1 Hv)).
Qed.

Lemma inv_change_password key pwd_hash pwd_verify db t now uid cur new salt :
  db_inv db ->
  db_inv (match get_current_user key t now with
          | Ok cu => snd (change_password pwd_hash pwd_verify db uid cur new cu salt)
          | HTTPError _ _ => db
          end).
Proof.
  intro Hdb. destruct (get_current_user key t now) as [cu|]; [|exact Hdb].
  unfold change_password.
  destruct (dict_get cu "sub"); try exact Hdb;
  match goal with |- context [py_int ?v] => destruct (py_int v) as [a|] end;
  try exact Hdb;
  destruct (negb (Z.eqb a uid)); try exact Hdb;
  destruct (get_user_by_id db uid) as [u|] eqn:Hu; try exact Hdb;
  destruct (negb (verify_password _ _ _)); try exact Hdb;
  destruct (negb (fst (validate new))); try exact Hdb;
  destruct (verify_password _ _ _); try exact Hdb;
  unfold get_user_by_id in Hu; simpl; keep_status Hdb.
Qed.

Lemma inv_update_user db uid req :
  db_inv db -> uu_role req <> Some "pending" -> db_inv (snd (update_user db uid req)).
Proof.
  intros Hdb Hr. unfold update_user.
  destruct (get_user_by_id db uid) as [u|] eqn:Hu; [|exact Hdb].
  destruct (existsb _ _); [exact Hdb|]. simpl.
  apply db_update_inv; [exact Hdb|].
  unfold get_user_by_id in Hu. pose proof (Hdb u (find_in _ _ _ Hu)) as Hpu.
  unfold pending_not_approved in *; simpl. unfold set_if_truthy.
  destruct (truthy_opt_str (uu_role req)) eqn:Ht; [|exact Hpu].
  destruct (uu_role req) as [r|]; simpl; [|exact Hpu].
  destruct (String.eqb_spec r "pending") as [->|]; [contradiction|reflexivity].
Qed.

Lemma create_user_pending pwd_hash kwargs db salt e n p fn ln db' u :
  create_user pwd_hash kwargs db salt e n p fn ln "pending" false = inr (db', u) ->
  role u = "pending" /\ is_approved u = false /\ In u db'.
Proof.
  unfold create_user.
  destruct (negb _); [discriminate|].
  destruct (get_user_by_email db e), (get_user_by_username db n); try discriminate.
  intro H; injection H as <- <-. simpl. repeat split.
  apply in_or_app; right; left; reflexivity.
Qed.

(** C9 (amended). Starting from a store where no account is both pending
    and approved, every account-writing endpoint keeps it so, except
    [PUT /users/{user_id}] ([update_user]) asked to set the role
    ["pending"]: [approve_user] sets [is_approved] only with a non-pending
    role, [create_educator] only with a teacher, paraeducator or admin role,
    [update_educator] never writes ["pending"], and the other endpoints keep
    role and approval. Rows that [db.create_user] inserts with its defaults
    are pending and not approved. *)
Theorem pending_invariant_preserved (SECRET_KEY : string)
  (pwd_hash : string -> string -> string) (pwd_verify : string -> string -> bool)
  (db : Db) (op : Op) (Hinv : db_inv db)
  (Hop : forall uid req, op = OpUpdateUser uid req -> uu_role req <> Some "pending") :
  db_inv (run_op SECRET_KEY pwd_hash pwd_verify db op) /\
  (forall kwargs db0 salt e n p fn ln db' u,
     create_user pwd_hash kwargs db0 salt e n p fn ln "pending" false = inr (db', u) ->
     role u = "pending" /\ is_approved u = false /\ In u db').
Proof.
  split; [|intros; eapply create_user_pending; eassumption].
  destruct op; simpl.
  - apply inv_register; exact Hinv.
  - apply inv_approve; exact Hinv.
  - apply inv_reject; exact Hinv.
  - apply inv_create_educator; exact Hinv.
  - apply inv_update_educator; exact Hinv.
  - apply inv_delete_educator; exact Hinv.
  - apply inv_forgot; exact Hinv.
  - apply inv_reset; exact Hinv.
  - apply inv_update_user; [exact Hinv|]. eapply Hop; reflexivity.
  - apply inv_change_password; exact Hinv.
Qed.

(** C9 (as written, refuted). [update_user] writes the role ["pending"]
    onto the approved teacher 1 and leaves [is_approved] true. *)
Lemma update_user_breaks_pending_invariant :
  db_inv [alice] /\
  ~ db_inv (run_op DEFAULT_SECRET_KEY demo_hash demo_verify [alice] (OpUpdateUser 1 make_pending)).
Proof.
  split.
  - intros u [<-|[]]; reflexivity.
  - intro H. vm_compute in H. specialize (H _ (or_introl eq_refl)). discriminate H.
Qed.

(** The store of [alice] and [bob] after [bob]'s password reset keeps the
    invariant. *)
Lemma pending_invariant_preserved_witness :
  db_inv (run_op DEFAULT_SECRET_KEY demo_hash demo_verify [alice; bob]
            (OpResetPassword "tkt" NEW_PASSWORD 90 "s2")).
Proof.
  apply (pending_invariant_preserved DEFAULT_SECRET_KEY demo_hash demo_verify
           [alice; bob] (OpResetPassword "tkt" NEW_PASSWORD 90 "s2")).
  - intros u [<-|[<-|[]]]; reflexivity.
  - intros uid req H; discriminate H.
Defined.

(* ================================================================== *)
(** * Further properties of the backend *)

Lemma byte_testbit_high (b k : Z) : 0 <= b < 256 -> 8 <= k -> Z.testbit b k = false.
Proof.
  intros Hb Hk. destruct (Z.eq_dec b 0) as [->|Hb0]; [apply Z.testbit_0_l|].
  apply Z.bits_above_log2; [lia|].
  assert (Z.log2 b < 8) by (apply Z.log2_lt_pow2; lia). lia.
Qed.

Ltac bits_rewrite :=
  repeat first
    [ rewrite Z.land_spec
    | rewrite Z.lor_spec
    | rewrite Z.shiftl_spec_low by lia
    | rewrite Z.shiftl_spec by lia
    | rewrite Z.shiftr_spec by lia ].

Ltac bits_high :=
  repeat match goal with
  | H : 0 <= ?b < 256 |- context [Z.testbit ?b ?k] =>
      rewrite (byte_testbit_high b k H) by lia
  end.

Lemma Z_lt_8_cases n : 0 <= n < 8 ->
  n = 0 \/ n = 1 \/ n = 2 \/ n = 3 \/ n = 4 \/ n = 5 \/ n = 6 \/ n = 7.
Proof. lia. Qed.

Ltac bits_eq :=
  apply Z.bits_inj'; intros n Hn;
  destruct (Z_lt_le_dec n 8) as [Hlt|Hge];
  [ let H := fresh in
    pose proof (Z_lt_8_cases n (conj Hn Hlt)) as H;
    repeat (destruct H as [->|H]); [..|subst];
    bits_rewrite; bits_high;
    repeat match goal with
    | |- context [Z.testbit ?b ?k] => is_var b;
        let k' := eval vm_compute in k in
        progress change k with k'
    end;
    repeat match goal with
    | |- context [Z.testbit ?b ?k] => is_var b;
        let t := fresh in remember (Z.testbit b k) as t eqn:?
    end;
    vm_compute; repeat match goal with |- context [?t] => is_var t; destruct t end;
    reflexivity
  | bits_rewrite; bits_high; rewrite ?(byte_testbit_high 255 n) by lia;
    rewrite ?andb_false_r; reflexivity ].


Lemma b64_out0 b0 b1 b2 : 0 <= b0 < 256 -> 0 <= b1 < 256 -> 0 <= b2 < 256 ->
  let leftchar := Z.lor (Z.lor (Z.shiftl b0 16) (Z.shiftl b1 8)) b2 in
  Z.land (Z.lor (Z.shiftl (Z.land (Z.shiftr leftchar 18) 63) 2)
                (Z.shiftr (Z.land (Z.shiftr leftchar 12) 63) 4)) 255 = b0.
Proof. intros H0 H1 H2 leftchar. subst leftchar. bits_eq. Qed.

Lemma b64_out1 b0 b1 b2 : 0 <= b0 < 256 -> 0 <= b1 < 256 -> 0 <= b2 < 256 ->
  let leftchar := Z.lor (Z.lor (Z.shiftl b0 16) (Z.shiftl b1 8)) b2 in
  Z.land (Z.lor (Z.shiftl (Z.land (Z.land (Z.shiftr leftchar 12) 63) 15) 4)
                (Z.shiftr (Z.land (Z.shiftr leftchar 6) 63) 2)) 255 = b1.
Proof. intros H0 H1 H2 leftchar. subst leftchar. bits_eq. Qed.

Lemma b64_out2 b0 b1 b2 : 0 <= b0 < 256 -> 0 <= b1 < 256 -> 0 <= b2 < 256 ->
  let leftchar := Z.lor (Z.lor (Z.shiftl b0 16) (Z.shiftl b1 8)) b2 in
  Z.land (Z.lor (Z.shiftl (Z.land (Z.land (Z.shiftr leftchar 6) 63) 3) 6)
                (Z.land leftchar 63)) 255 = b2.
Proof. intros H0 H1 H2 leftchar. subst leftchar. bits_eq. Qed.

Lemma b64_tail2_out0 b0 b1 : 0 <= b0 < 256 -> 0 <= b1 < 256 ->
  let leftchar := Z.lor (Z.shiftl b0 16) (Z.shiftl b1 8) in
  Z.land (Z.lor (Z.shiftl (Z.land (Z.shiftr leftchar 18) 63) 2)
                (Z.shiftr (Z.land (Z.shiftr leftchar 12) 63) 4)) 255 = b0.
Proof. intros H0 H1 leftchar. subst leftchar. bits_eq. Qed.

Lemma b64_tail2_out1 b0 b1 : 0 <= b0 < 256 -> 0 <= b1 < 256 ->
  let leftchar := Z.lor (Z.shiftl b0 16) (Z.shiftl b1 8) in
  Z.land (Z.lor (Z.shiftl (Z.land (Z.land (Z.shiftr leftchar 12) 63) 15) 4)
                (Z.shiftr (Z.land (Z.shiftr leftchar 6) 63) 2)) 255 = b1.
Proof. intros H0 H1 leftchar. subst leftchar. bits_eq. Qed.

Lemma b64_tail1_out0 b0 : 0 <= b0 < 256 ->
  let leftchar := Z.shiftl b0 16 in
  Z.land (Z.lor (Z.shiftl (Z.land (Z.shiftr leftchar 18) 63) 2)
                (Z.shiftr (Z.land (Z.shiftr leftchar 12) 63) 4)) 255 = b0.
Proof. intros H0 leftchar. subst leftchar. bits_eq. Qed.

Definition b2a_char_check (v : Z) : bool :=
  (Z.eqb (table_a2b_base64 (b2a_char v)) v && negb (Ascii.eqb (b2a_char v) "=")
   && Nat.ltb (nat_of_ascii (b2a_char v)) 128)%bool.

Lemma b2a_char_check_all : forallb (fun n => b2a_char_check (Z.of_nat n)) (seq 0 64) = true.
Proof. vm_compute. reflexivity. Qed.

Lemma b2a_char_ok (v : Z) : 0 <= v < 64 ->
  table_a2b_base64 (b2a_char v) = v /\ Ascii.eqb (b2a_char v) "=" = false /\
  Nat.leb 128 (nat_of_ascii (b2a_char v)) = false.
Proof.
  intros Hv.
  pose proof (proj1 (forallb_forall _ _) b2a_char_check_all (Z.to_nat v)) as H.
  cbv beta in H. rewrite Z2Nat.id in H by lia.
  assert (Hin : In (Z.to_nat v) (seq 0 64)) by (apply in_seq; lia).
  specialize (H Hin). unfold b2a_char_check in H.
  apply andb_prop in H as [H H3]. apply andb_prop in H as [H1 H2].
  apply Z.eqb_eq in H1. apply negb_true_iff in H2. apply Nat.ltb_lt in H3.
  repeat split; auto. apply Nat.leb_gt. lia.
Qed.

Lemma land63_range (x : Z) : 0 <= Z.land x 63 < 64.
Proof.
  change 63 with (Z.ones 6). rewrite Z.land_ones by lia.
  apply Z.mod_pos_bound. lia.
Qed.


Section A2bSteps.
Variables (c : ascii) (s : string) (leftchar pads : Z) (out : bytes).
Hypothesis Hc : Ascii.eqb c "=" = false.
Hypothesis Hv : 0 <= table_a2b_base64 c < 64.

Let v := table_a2b_base64 c.

Lemma a2b_step0 : a2b_base64_loop (String c s) 0 leftchar pads out =
  a2b_base64_loop s 1 v 0 out.
Proof.
  cbn [a2b_base64_loop]. rewrite Hc. fold v.
  destruct (Z.leb_spec 64 v); [lia|]. reflexivity.
Qed.

Lemma a2b_step1 : a2b_base64_loop (String c s) 1 leftchar pads out =
  a2b_base64_loop s 2 (Z.land v 15) 0
    (out ++ [Z.land (Z.lor (Z.shiftl leftchar 2) (Z.shiftr v 4)) 255])%list.
Proof.
  cbn [a2b_base64_loop]. rewrite Hc. fold v.
  destruct (Z.leb_spec 64 v); [lia|]. reflexivity.
Qed.

Lemma a2b_step2 : a2b_base64_loop (String c s) 2 leftchar pads out =
  a2b_base64_loop s 3 (Z.land v 3) 0
    (out ++ [Z.land (Z.lor (Z.shiftl leftchar 4) (Z.shiftr v 2)) 255])%list.
Proof.
  cbn [a2b_base64_loop]. rewrite Hc. fold v.
  destruct (Z.leb_spec 64 v); [lia|]. reflexivity.
Qed.

Lemma a2b_step3 : a2b_base64_loop (String c s) 3 leftchar pads out =
  a2b_base64_loop s 0 0 0
    (out ++ [Z.land (Z.lor (Z.shiftl leftchar 6) v) 255])%list.
Proof.
  cbn [a2b_base64_loop]. rewrite Hc. fold v.
  destruct (Z.leb_spec 64 v); [lia|]. reflexivity.
Qed.
End A2bSteps.

Lemma a2b_pad3 (s : string) (leftchar : Z) (out : bytes) :
  a2b_base64_loop (String "=" s) 3 leftchar 0 out = inl out.
Proof. reflexivity. Qed.

Lemma a2b_pad2 (leftchar : Z) (out : bytes) :
  a2b_base64_loop "==" 2 leftchar 0 out = inl out.
Proof. reflexivity. Qed.

Ltac a2b_steps :=
  repeat match goal with
  | |- context [a2b_base64_loop (String (b2a_char (Z.land ?x 63)) _) ?q _ _ _] =>
      let R := fresh in pose proof (land63_range x) as R;
      let E := fresh in let Q := fresh in
      destruct (b2a_char_ok _ R) as (E & Q & _);
      first [ rewrite (a2b_step0 _ _ _ _ _ Q) by (rewrite E; exact R)
            | rewrite (a2b_step1 _ _ _ _ _ Q) by (rewrite E; exact R)
            | rewrite (a2b_step2 _ _ _ _ _ Q) by (rewrite E; exact R)
            | rewrite (a2b_step3 _ _ _ _ _ Q) by (rewrite E; exact R) ];
      rewrite ?E; clear R E Q
  end.

Lemma a2b_b64encode (bs : bytes) : forall (pads : Z) (out : bytes),
  Forall (fun b => 0 <= b < 256) bs ->
  a2b_base64_loop (b64encode bs) 0 0 pads out = inl (out ++ bs)%list.
Proof.
  induction bs as [bs IH] using (induction_ltof1 _ (@List.length Z)).
  intros pads out Hbs.
  destruct bs as [|b0 [|b1 [|b2 rest]]].
  - cbn. rewrite app_nil_r. reflexivity.
  - apply Forall_cons_iff in Hbs as [H0 _].
    cbn [b64encode]. a2b_steps. rewrite a2b_pad2.
    rewrite (b64_tail1_out0 b0 H0). rewrite <- ?app_assoc. reflexivity.
  - apply Forall_cons_iff in Hbs as [H0 Hbs]. apply Forall_cons_iff in Hbs as [H1 _].
    cbn [b64encode]. a2b_steps. rewrite a2b_pad3.
    rewrite (b64_tail2_out0 b0 b1 H0 H1), (b64_tail2_out1 b0 b1 H0 H1).
    rewrite <- ?app_assoc. reflexivity.
  - apply Forall_cons_iff in Hbs as [H0 Hbs]. apply Forall_cons_iff in Hbs as [H1 Hbs].
    apply Forall_cons_iff in Hbs as [H2 Hr].
    cbn [b64encode]. a2b_steps.
    rewrite (b64_out0 b0 b1 b2 H0 H1 H2), (b64_out1 b0 b1 b2 H0 H1 H2),
            (b64_out2 b0 b1 b2 H0 H1 H2).
    rewrite IH by (unfold ltof; cbn; lia || assumption).
    rewrite <- ?app_assoc. reflexivity.
Qed.

Lemma b64encode_ascii (bs : bytes) :
  str_exists (fun c => Nat.leb 128 (nat_of_ascii c)) (b64encode bs) = false.
Proof.
  induction bs as [bs IH] using (induction_ltof1 _ (@List.length Z)).
  destruct bs as [|b0 [|b1 [|b2 rest]]]; cbn [b64encode str_exists];
  repeat match goal with
  | |- context [Nat.leb 128 (nat_of_ascii (b2a_char (Z.land ?x 63)))] =>
      destruct (b2a_char_ok _ (land63_range x)) as (_ & _ & ->)
  end; try reflexivity.
  apply IH. unfold ltof. cbn. lia.
Qed.

(** Profile images: for any bytes, the base64 text that
    [users._encode_profile_image] produces is decoded by
    [users._decode_profile_image] back to the same bytes, except that empty
    bytes encode to the empty text, which the decoder refuses;
    [auth._encode_profile_image] gives the same text, or [None] for empty
    bytes. *)
Theorem profile_image_round_trip (bs : bytes) :
  Forall (fun b => 0 <= b < 256) bs ->
  exists s, users_encode_profile_image (Some bs) = Some s /\
    users_decode_profile_image s =
      (match bs with [] => inr ImageDataCannotBeEmpty | _ => inl bs end) /\
    auth_encode_profile_image (Some bs) =
      (match bs with [] => None | _ => Some s end).
Proof.
  intros Hbs. exists (b64encode bs). split; [reflexivity|].
  destruct bs as [|b0 bs']; [split; reflexivity|].
  split; [|reflexivity].
  unfold users_decode_profile_image.
  assert (Hne : String.eqb (b64encode (b0 :: bs')) "" = false).
  { destruct bs' as [|b1 [|b2 rest]]; reflexivity. }
  rewrite Hne. unfold b64decode. rewrite b64encode_ascii.
  rewrite a2b_b64encode by exact Hbs. reflexivity.
Qed.

Lemma access_claims_get (key : string) (p : TokenPayload) (t : Z) :
  exists claims, create_access_token key p t = Signed claims key /\
    dict_get claims "user_id" = PInt (tp_user_id p) /\
    dict_get claims "email" = PStr (tp_email p) /\
    dict_get claims "role" = PStr (role_value (tp_role p)) /\
    dict_get claims "type" = PStr "access" /\
    dict_get claims "exp" = PInt (t + ACCESS_TOKEN_EXPIRE_MINUTES * 60) /\
    dict_get claims "iat" = PInt t.
Proof. eexists. split; [reflexivity|]. repeat split. Qed.

Lemma refresh_claims_get (key : string) (p : TokenPayload) (t : Z) :
  exists claims, create_refresh_token key p t = Signed claims key /\
    dict_get claims "user_id" = PInt (tp_user_id p) /\
    dict_get claims "email" = PStr (tp_email p) /\
    dict_get claims "role" = PNone /\
    dict_get claims "type" = PStr "refresh" /\
    dict_get claims "exp" = PInt (t + REFRESH_TOKEN_EXPIRE_DAYS * 86400) /\
    dict_get claims "iat" = PInt t.
Proof. eexists. split; [reflexivity|]. repeat split. Qed.

Lemma jwt_decode_own (claims : dict) (key : string) (t life now : Z) :
  dict_get claims "iat" = PInt t -> dict_get claims "exp" = PInt (t + life) ->
  jwt_decode (Signed claims key) key now =
  if Z.ltb now t then inr InvalidTokenError
  else if Z.leb (t + life) now then inr ExpiredSignatureError
  else inl claims.
Proof.
  intros Hi He. cbn [jwt_decode]. rewrite String.eqb_refl. cbn [negb].
  unfold jwt_validate_iat, jwt_validate_exp. rewrite Hi, He.
  destruct (Z.ltb now t); [reflexivity|]. destruct (Z.leb (t + life) now); reflexivity.
Qed.

(** An access token issued at [t] passes [get_current_user] exactly during
    [t, t + 30 min): there it yields claims carrying the payload's [user_id]
    and [role] and type [access]; from [t + 30 min] on the answer is 401
    [Token has expired], and before [t] (an [iat] in the future) 401
    [Invalid token]. *)
Theorem access_token_lifetime (key : string) (p : TokenPayload) (t now : Z) :
  (t <= now < t + ACCESS_TOKEN_EXPIRE_MINUTES * 60 ->
   exists claims, get_current_user key (create_access_token key p t) now = Ok claims /\
     dict_get claims "user_id" = PInt (tp_user_id p) /\
     dict_get claims "role" = PStr (role_value (tp_role p)) /\
     dict_get claims "type" = PStr "access") /\
  (t + ACCESS_TOKEN_EXPIRE_MINUTES * 60 <= now ->
   get_current_user key (create_access_token key p t) now =
     HTTPError HTTP_401_UNAUTHORIZED "Token has expired") /\
  (now < t ->
   get_current_user key (create_access_token key p t) now =
     HTTPError HTTP_401_UNAUTHORIZED "Invalid token").
Proof.
  destruct (access_claims_get key p t) as (c & Ht & Hid & _ & Hrole & Htype & Hexp & Hiat).
  unfold get_current_user, verify_token. rewrite Ht.
  rewrite (jwt_decode_own c key t _ now Hiat Hexp).
  split; [|split]; intros H.
  - destruct (Z.ltb_spec now t); [lia|].
    destruct (Z.leb_spec (t + ACCESS_TOKEN_EXPIRE_MINUTES * 60) now); [lia|].
    rewrite Htype. exists c. cbn. auto.
  - destruct (Z.ltb_spec now t); [unfold ACCESS_TOKEN_EXPIRE_MINUTES in *; lia|].
    destruct (Z.leb_spec (t + ACCESS_TOKEN_EXPIRE_MINUTES * 60) now); [reflexivity|lia].
  - destruct (Z.ltb_spec now t); [reflexivity|lia].
Qed.

(** A refresh token issued at [t] is accepted by [verify_token] exactly
    during [t, t + 7 days): its claims carry the payload's [user_id] and
    [email], no [role], and type [refresh]; afterwards [verify_token] raises
    [ExpiredSignatureError], and before [t] [InvalidTokenError]. *)
Theorem refresh_token_lifetime (key : string) (p : TokenPayload) (t now : Z) :
  (t <= now < t + REFRESH_TOKEN_EXPIRE_DAYS * 86400 ->
   exists claims, verify_token key (create_refresh_token key p t) now = inl claims /\
     dict_get claims "user_id" = PInt (tp_user_id p) /\
     dict_get claims "email" = PStr (tp_email p) /\
     dict_get claims "role" = PNone /\
     dict_get claims "type" = PStr "refresh") /\
  (t + REFRESH_TOKEN_EXPIRE_DAYS * 86400 <= now ->
   verify_token key (create_refresh_token key p t) now = inr ExpiredSignatureError) /\
  (now < t -> verify_token key (create_refresh_token key p t) now = inr InvalidTokenError).
Proof.
  destruct (refresh_claims_get key p t) as (c & Ht & Hid & Hem & Hrole & Htype & Hexp & Hiat).
  unfold verify_token. rewrite Ht.
  rewrite (jwt_decode_own c key t _ now Hiat Hexp).
  split; [|split]; intros H.
  - destruct (Z.ltb_spec now t); [lia|].
    destruct (Z.leb_spec (t + REFRESH_TOKEN_EXPIRE_DAYS * 86400) now); [lia|].
    exists c. auto.
  - destruct (Z.ltb_spec now t); [unfold REFRESH_TOKEN_EXPIRE_DAYS in *; lia|].
    destruct (Z.leb_spec (t + REFRESH_TOKEN_EXPIRE_DAYS * 86400) now); [reflexivity|lia].
  - destruct (Z.ltb_spec now t); [reflexivity|lia].
Qed.

(** A token signed with another key, or a string that is no JWT at all, is
    refused by [get_current_user] with 401 [Invalid token] and by
    [refresh_token] with 401 and the generic refresh failure message,
    whatever the store and the time. *)
Theorem foreign_tokens_rejected (key k : string) (claims : dict) (s : string)
  (db : Db) (now : Z) :
  k <> key ->
  get_current_user key (Signed claims k) now = HTTPError HTTP_401_UNAUTHORIZED "Invalid token" /\
  get_current_user key (Garbage s) now = HTTPError HTTP_401_UNAUTHORIZED "Invalid token" /\
  refresh_token key db (Signed claims k) now = HTTPError HTTP_401_UNAUTHORIZED msg_refresh_failed /\
  refresh_token key db (Garbage s) now = HTTPError HTTP_401_UNAUTHORIZED msg_refresh_failed.
Proof.
  intros Hk. apply String.eqb_neq in Hk.
  unfold get_current_user, refresh_token, verify_token. cbn [jwt_decode]. rewrite Hk.
  repeat split.
Qed.

Lemma find_map_f (f : User -> User) (p : User -> bool) (db : Db) :
  (forall u, p (f u) = p u) -> find p (map f db) = option_map f (find p db).
Proof.
  intros Hp. induction db as [|u db IH]; [reflexivity|].
  cbn. rewrite Hp. destruct (p u); [reflexivity|exact IH].
Qed.

(** [login] never reads the account status: changing only the other columns
    of rows (active, approved, rejected flags, dates, tickets) changes
    neither which requests succeed nor the token, only the returned row. *)
Theorem login_ignores_account_status (key : string) (pv : string -> string -> bool)
  (f : User -> User) (db : Db) (e n : option string) (p : string) (now : Z) :
  (forall u, user_id (f u) = user_id u /\ email (f u) = email u /\
             hashed_password (f u) = hashed_password u /\ role (f u) = role u /\
             first_name (f u) = first_name u /\ last_name (f u) = last_name u /\
             desired_name (f u) = desired_name u) ->
  login key pv (map f db) e n p now =
  match login key pv db e n p now with
  | Ok (tok, u) => Ok (tok, f u)
  | HTTPError c d => HTTPError c d
  end.
Proof.
  intros Hf. unfold login.
  destruct (py_or_str e n) as [ident|]; [|reflexivity].
  destruct (String.eqb ident ""); [reflexivity|].
  unfold authenticate_user, get_user_by_email.
  rewrite (find_map_f f) by (intros u; destruct (Hf u) as (_ & -> & _); reflexivity).
  destruct (find (fun u => String.eqb (email u) ident) db) as [u|]; [|reflexivity].
  cbn [option_map]. destruct (Hf u) as (Hid & Hem & Hh & Hr & Hfn & Hln & Hdn).
  rewrite Hh. destruct (verify_password pv p (hashed_password u)); [|reflexivity].
  rewrite Hr. destruct (Role_of_string (role u)) as [r|]; [|reflexivity].
  unfold payload_of_user. rewrite Hid, Hem, Hfn, Hln, Hdn. reflexivity.
Qed.

Lemma Role_of_string_value (s : string) (r : Role) :
  Role_of_string s = Some r -> role_value r = s.
Proof.
  unfold Role_of_string.
  repeat match goal with
  | |- context [String.eqb s ?lit] =>
      destruct (String.eqb_spec s lit) as [->|_]; [intros H; injection H as <-; reflexivity|]
  end.
  discriminate.
Qed.

(** The access token [login] returns is accepted by [get_current_user] for
    its whole 30 minutes, with the account's id, email and role, and
    [require_role(allowed)] admits it iff the account's role is [superuser]
    or among [allowed]. *)
Theorem login_token_admits (key : string) (pv : string -> string -> bool) (db : Db)
  (e n : option string) (p : string) (now : Z) (tok : jwt_token) (u : User) (now' : Z) :
  login key pv db e n p now = Ok (tok, u) ->
  now <= now' < now + ACCESS_TOKEN_EXPIRE_MINUTES * 60 ->
  exists claims, get_current_user key tok now' = Ok claims /\
    dict_get claims "user_id" = PInt (user_id u) /\
    dict_get claims "email" = PStr (email u) /\
    dict_get claims "role" = PStr (role u) /\
    forall allowed : list Role,
      (exists cu, role_guard key allowed tok now' = Ok cu) <->
      (role u = role_value SUPERUSER \/ In (role u) (map role_value allowed)).
Proof.
  intros Hl Hnow. unfold login in Hl.
  destruct (py_or_str e n) as [ident|]; [|discriminate].
  destruct (String.eqb ident ""); [discriminate|].
  destruct (authenticate_user pv db ident p) as [u0|]; [|discriminate].
  destruct (Role_of_string (role u0)) as [r|] eqn:Hr; [|discriminate].
  injection Hl as <- <-.
  apply Role_of_string_value in Hr.
  destruct (access_claims_get key (payload_of_user u0 r) now)
    as (c & Ht & Hid & Hem & Hrole & Htype & Hexp & Hiat).
  assert (Hg : get_current_user key (create_access_token key (payload_of_user u0 r) now) now' = Ok c).
  { unfold get_current_user, verify_token. rewrite Ht.
    rewrite (jwt_decode_own c key now _ now' Hiat Hexp).
    destruct (Z.ltb_spec now' now); [lia|].
    destruct (Z.leb_spec (now + ACCESS_TOKEN_EXPIRE_MINUTES * 60) now'); [lia|].
    rewrite Htype. reflexivity. }
  exists c. rewrite Hg. cbn [payload_of_user tp_user_id tp_email tp_role] in Hid, Hem, Hrole.
  rewrite Hr in Hrole. split; [reflexivity|]. split; [exact Hid|]. split; [exact Hem|].
  split; [exact Hrole|].
  intros allowed. unfold role_guard. rewrite Hg. unfold require_role. rewrite Hrole.
  cbn [pyval_eqb role_value].
  destruct (String.eqb_spec (role u0) "superuser") as [Hs|Hs].
  - split; [intros _; left; exact Hs|intros _; eexists; reflexivity].
  - destruct (existsb (fun v => String.eqb (role u0) v) (map role_value allowed))
      eqn:Hex; cbn [negb].
    + split; [intros _; right|intros _; eexists; reflexivity].
      apply existsb_exists in Hex as (v & Hin & Hv).
      apply String.eqb_eq in Hv. subst v. exact Hin.
    + split; [intros (cu & Hcu); discriminate|].
      intros [H|H]; [contradiction|].
      assert (Hin : existsb (fun v => String.eqb (role u0) v) (map role_value allowed) = true).
      { apply existsb_exists. exists (role u0). split; [exact H|apply String.eqb_refl]. }
      congruence.
Qed.

(** [POST /auth/register] never creates an account: it always answers 400,
    409 or 500 and leaves the store unchanged. *)
Theorem register_never_creates (ph : string -> string -> string) (db : Db)
  (salt e n p fn ln : string) :
  snd (register ph db salt e n p fn ln) = db /\
  match fst (register ph db salt e n p fn ln) with
  | Ok _ => False
  | HTTPError c _ => c = 400 \/ c = 409 \/ c = 500
  end.
Proof.
  unfold register.
  destruct (negb (is_valid _)); [cbn; auto|].
  destruct (user_exists db (Some e) None); [cbn; auto|].
  destruct (match get_user_by_username db n with Some _ => true | None => false end);
    [cbn; auto|].
  cbn. auto.
Qed.

(** [POST /auth/admin/educators] never creates an account: it always answers
    400 or 500 and leaves the store unchanged. *)
Theorem create_educator_never_creates (ph : string -> string -> string) (db : Db)
  (req : CreateEducatorRequest) (current_user : dict) (now : Z) (salt : string) :
  snd (create_educator ph db req current_user now salt) = db /\
  match fst (create_educator ph db req current_user now salt) with
  | Ok _ => False
  | HTTPError c _ => c = 400 \/ c = 500
  end.
Proof.
  unfold create_educator.
  destruct (negb (existsb _ EDUCATOR_ROLES)); [cbn; auto|].
  destruct (match get_user_by_email db (ce_email req) with Some _ => true | None => false end);
    [cbn; auto|].
  destruct (_ && _)%bool; cbn; auto.
Qed.

Lemma NoDup_map_inj {A B} (f : A -> B) (l : list A) (x y : A) :
  NoDup (map f l) -> In x l -> In y l -> f x = f y -> x = y.
Proof.
  induction l as [|a l IH]; [intros _ []|].
  cbn. intros Hnd Hx Hy Hf. inversion Hnd as [|? ? Hnin Hnd']; subst.
  destruct Hx as [<-|Hx], Hy as [<-|Hy]; auto.
  - exfalso. apply Hnin. rewrite Hf. apply in_map. exact Hy.
  - exfalso. apply Hnin. rewrite <- Hf. apply in_map. exact Hx.
Qed.

(** [PUT /auth/admin/educators/{id}] never changes a stored password hash,
    even when the request carries a new password (the store's ids being
    distinct). *)
Theorem update_educator_keeps_passwords (db : Db) (educator_id : Z)
  (req : UpdateEducatorRequest) :
  NoDup (map user_id db) ->
  map hashed_password (snd (update_educator db educator_id req)) = map hashed_password db.
Proof.
  intros Hnd. unfold update_educator.
  destruct (get_user_by_id db educator_id) as [ed|] eqn:He; [|reflexivity].
  unfold get_user_by_id in He.
  pose proof (find_some _ _ He) as [Hin Hid]. apply Z.eqb_eq in Hid.
  destruct (_ && _)%bool; [reflexivity|].
  destruct (_ && _ && _)%bool; [reflexivity|].
  destruct (_ && _ && _)%bool; [reflexivity|].
  cbn [snd]. unfold db_update. rewrite map_map. apply map_ext_in.
  intros v Hv. cbn [user_id]. destruct (Z.eqb_spec (user_id v) (user_id ed)) as [E|E];
    [|reflexivity].
  cbn. rewrite (NoDup_map_inj user_id db v ed Hnd Hv Hin E). reflexivity.
Qed.

(** [POST /users/{id}/change-password] refuses every access token the code
    issues, with 401 and the store unchanged: an unexpired one lacks the
    [sub] claim the handler reads. *)
Theorem change_password_refuses_access_tokens (key : string)
  (ph : string -> string -> string) (pv : string -> string -> bool) (db : Db)
  (p : TokenPayload) (t now uid : Z) (cur new salt : string) :
  exists d, change_password_endpoint key ph pv db (create_access_token key p t) now uid cur new salt
            = (HTTPError HTTP_401_UNAUTHORIZED d, db) /\
          (d = "Invalid token" \/ d = "Token has expired").
Proof.
  destruct (access_claims_get key p t) as (c & Ht & _ & _ & _ & Htype & Hexp & Hiat).
  unfold change_password_endpoint, get_current_user, verify_token. rewrite Ht.
  rewrite (jwt_decode_own c key t _ now Hiat Hexp).
  destruct (Z.ltb now t); [eexists; split; [reflexivity|left; reflexivity]|].
  destruct (Z.leb _ now); [eexists; split; [reflexivity|right; reflexivity]|].
  rewrite Htype. cbn [pyval_eqb]. rewrite String.eqb_refl. cbn [negb].
  assert (Hsub : dict_get c "sub" = PNone).
  { injection Ht as <-. reflexivity. }
  unfold change_password. rewrite Hsub.
  eexists. split; [reflexivity|left; reflexivity].
Qed.

Lemma In_db_update (db : Db) (v w : User) :
  In w (db_update db v) -> w = v \/ (In w db /\ user_id w <> user_id v).
Proof.
  unfold db_update. intros Hw. apply in_map_iff in Hw as (x & Hx & Hin).
  destruct (Z.eqb_spec (user_id x) (user_id v)) as [E|E]; [left; auto|].
  subst x. right. auto.
Qed.

Lemma db_update_In (db : Db) (u v : User) :
  In u db -> user_id u = user_id v -> In v (db_update db v).
Proof.
  intros Hu Hid. unfold db_update. apply in_map_iff. exists u. split; [|exact Hu].
  rewrite Hid, Z.eqb_refl. reflexivity.
Qed.



Lemma find_reset_token_none (db : Db) (tok : string) :
  (forall w, In w db -> password_reset_token w <> Some tok) ->
  get_user_by_reset_token db tok = None.
Proof.
  unfold get_user_by_reset_token. intros H.
  destruct (find _ db) as [w|] eqn:Hf; [|reflexivity].
  apply find_some in Hf as [Hin Hw]. exfalso.
  destruct (password_reset_token w) as [t'|] eqn:Ht; [|discriminate].
  apply String.eqb_eq in Hw. subst t'. exact (H w Hin Ht).
Qed.

Lemma db_update_clears_ticket (db : Db) (v : User) (tok : string) :
  (forall w, In w db -> password_reset_token w = Some tok -> user_id w = user_id v) ->
  password_reset_token v <> Some tok ->
  forall w, In w (db_update db v) -> password_reset_token w <> Some tok.
Proof.
  intros Hdb Hv w Hw. apply In_db_update in Hw as [->|[Hin Hid]]; [exact Hv|].
  intros Ht. exact (Hid (Hdb w Hin Ht)).
Qed.



Lemma reset_password_success_store (ph : string -> string -> string) (db : Db) (tok p : string)
  (now : Z) (salt : string) (resp : ResetPasswordResponse) :
  fst (reset_password ph db tok p now salt) = Ok resp ->
  exists u u', get_user_by_reset_token db tok = Some u /\
    snd (reset_password ph db tok p now salt) = db_update db u' /\
    user_id u' = user_id u /\ password_reset_token u' = None.
Proof.
  unfold reset_password.
  destruct (negb (is_valid (validate_password p ""))); [discriminate|].
  destruct (get_user_by_reset_token db tok) as [u|]; [|discriminate].
  destruct (password_reset_expires u) as [exp|]; [|discriminate].
  destruct (Z.ltb exp now); [discriminate|].
  intros _. exists u; eexists. split; [reflexivity|]. split; [reflexivity|].
  split; reflexivity.
Qed.

(** A reset ticket works once: after a successful [reset_password], the same
    ticket is refused with the invalid-link message, the store unchanged
    (the ticket being held by one account id). *)
Theorem reset_ticket_single_use (ph : string -> string -> string) (db : Db) (tok p p' : string)
  (now now' : Z) (salt salt' : string) (resp : ResetPasswordResponse) :
  ticket_unique db tok ->
  fst (reset_password ph db tok p now salt) = Ok resp ->
  is_valid (validate_password p' "") = true ->
  let db' := snd (reset_password ph db tok p now salt) in
  reset_password ph db' tok p' now' salt' = (HTTPError HTTP_400_BAD_REQUEST msg_reset_invalid, db').
Proof.
  intros Huniq Hok Hvalid db'.
  destruct (reset_password_success_store ph db tok p now salt resp Hok)
    as (u & u' & Hu & Hdb' & Hid & Htok).
  unfold get_user_by_reset_token in Hu.
  apply find_some in Hu as [Huin Hut].
  destruct (password_reset_token u) as [t0|] eqn:Ht0; [|discriminate].
  apply String.eqb_eq in Hut. subst t0.
  assert (Hnone : get_user_by_reset_token db' tok = None).
  { apply find_reset_token_none. unfold db'. rewrite Hdb'.
    apply db_update_clears_ticket; [|rewrite Htok; discriminate].
    intros w Hw Hwt. rewrite Hid. exact (Huniq w u Hw Huin Hwt Ht0). }
  unfold reset_password at 1. rewrite Hvalid. cbn [negb]. rewrite Hnone. reflexivity.
Qed.



(** A successful [approve_user] writes one row, with the requested id. *)
Lemma approve_user_success (db : Db) (uid : Z) (notes : option string) (r : string)
  (cu : dict) (now : Z) (u' : User) :
  fst (approve_user db uid notes r cu now) = Ok u' ->
  exists u, In u db /\ user_id u = uid /\ user_id u' = uid /\ role u' = r /\
    is_approved u' = true /\ registered_date u' = Some now /\
    snd (approve_user db uid notes r cu now) = db_update db u'.
Proof.
  unfold approve_user.
  destruct (get_user_by_id db uid) as [u|] eqn:Hu; [|discriminate].
  unfold get_user_by_id in Hu. apply find_some in Hu as [Hin Hid]. apply Z.eqb_eq in Hid.
  destruct (Role_of_string r) as [rr|] eqn:Hr; [|discriminate].
  apply Role_of_string_value in Hr.
  destruct rr; try discriminate; cbn [fst snd]; intros Hok; injection Hok as <-;
    exists u; cbn in Hr |- *; repeat split; auto.
Qed.

Lemma reject_user_success (db : Db) (uid : Z) (reason : string) (cu : dict) (now : Z)
  (u' : User) :
  fst (reject_user db uid reason cu now) = Ok u' ->
  exists u, In u db /\ user_id u = uid /\ user_id u' = uid /\ is_rejected u' = true /\
    snd (reject_user db uid reason cu now) = db_update db u'.
Proof.
  unfold reject_user.
  destruct (get_user_by_id db uid) as [u|] eqn:Hu; [|discriminate].
  unfold get_user_by_id in Hu. apply find_some in Hu as [Hin Hid]. apply Z.eqb_eq in Hid.
  cbn [fst snd]. intros Hok; injection Hok as <-. exists u; cbn; repeat split; auto.
Qed.

Lemma pending_after_update (db : Db) (u' : User) :
  pending_users_filter u' = false ->
  forall v, In v (snd (get_pending_users (db_update db u'))) -> user_id v <> user_id u'.
Proof.
  intros Hf v Hv. cbn [get_pending_users snd] in Hv.
  apply filter_In in Hv as [Hv Hvf].
  apply In_db_update in Hv as [->|[_ Hid]]; [congruence|exact Hid].
Qed.

(** After a successful [approve_user] or [reject_user] of an id, no row with
    that id is listed by [GET /auth/admin/pending-users]. *)
Theorem approve_reject_leave_pending_list (db : Db) (uid : Z) (notes : option string)
  (r reason : string) (cu : dict) (now : Z) :
  ((exists u', fst (approve_user db uid notes r cu now) = Ok u') ->
   forall v, In v (snd (get_pending_users (snd (approve_user db uid notes r cu now)))) ->
     user_id v <> uid) /\
  ((exists u', fst (reject_user db uid reason cu now) = Ok u') ->
   forall v, In v (snd (get_pending_users (snd (reject_user db uid reason cu now)))) ->
     user_id v <> uid).
Proof.
  split; intros (u' & Hok).
  - destruct (approve_user_success db uid notes r cu now u' Hok)
      as (u & _ & _ & Hid & _ & Happ & _ & Hdb).
    rewrite Hdb, <- Hid. apply pending_after_update.
    unfold pending_users_filter. rewrite Happ. apply andb_false_iff. left.
    apply andb_false_iff. right. reflexivity.
  - destruct (reject_user_success db uid reason cu now u' Hok)
      as (u & _ & _ & Hid & Hrej & Hdb).
    rewrite Hdb, <- Hid. apply pending_after_update.
    unfold pending_users_filter. rewrite Hrej. apply andb_false_iff. right. reflexivity.
Qed.

Lemma insert_registered_desc_In (u x : User) (l : list User) :
  In x (insert_registered_desc u l) <-> x = u \/ In x l.
Proof.
  induction l as [|v l IH]; cbn; [intuition congruence|].
  destruct (Z.ltb (registered_key v) (registered_key u)); cbn; [intuition congruence|].
  rewrite IH. intuition congruence.
Qed.

Lemma order_by_registered_desc_In (x : User) (l : list User) :
  In x (order_by_registered_desc l) <-> In x l.
Proof.
  unfold order_by_registered_desc.
  induction l as [|v l IH]; cbn; [tauto|].
  rewrite insert_registered_desc_In, IH. intuition congruence.
Qed.

(** The row a successful [approve_user] writes is listed by [GET
    /auth/admin/educators] iff the role granted is [teacher] or
    [paraeducator], and by [GET /auth/admin/approved-users-recent] at [now']
    iff the approval time is at most seven days before [now']. *)
Theorem approve_user_listings (db : Db) (uid : Z) (notes : option string) (r : string)
  (cu : dict) (now now' : Z) (u' : User) :
  fst (approve_user db uid notes r cu now) = Ok u' ->
  let db' := snd (approve_user db uid notes r cu now) in
  (In u' (snd (get_educators db')) <-> r = "teacher" \/ r = "paraeducator") /\
  (In u' (snd (get_approved_users_recent db' now')) <-> now' - 7 * 86400 <= now).
Proof.
  intros Hok db'.
  destruct (approve_user_success db uid notes r cu now u' Hok)
    as (u & Hin & Huid & Hid & Hrole & Happ & Hreg & Hdb).
  assert (Hin' : In u' db').
  { unfold db'. rewrite Hdb. apply (db_update_In db u u'); congruence. }
  split.
  - cbn [get_educators snd]. rewrite filter_In. unfold educators_filter.
    rewrite Hrole, Happ. cbn [existsb role_value]. rewrite Bool.andb_true_r, Bool.orb_false_r.
    split.
    + intros [_ H]. apply orb_true_iff in H as [H|H]; apply String.eqb_eq in H; auto.
    + intros [->| ->]; split; auto.
  - cbn [get_approved_users_recent snd]. rewrite order_by_registered_desc_In, filter_In.
    unfold recently_approved_filter. rewrite Happ, Hreg. cbn [Bool.eqb andb].
    rewrite Bool.andb_true_r, Z.leb_le. tauto.
Qed.




Lemma existsb_false_forall {A} (f : A -> bool) (l : list A) :
  existsb f l = false <-> forall x, In x l -> f x = false.
Proof.
  split.
  - intros H x Hx. destruct (f x) eqn:Hf; [|reflexivity].
    assert (existsb f l = true) by (apply existsb_exists; eauto). congruence.
  - intros H. destruct (existsb f l) eqn:He; [|reflexivity].
    apply existsb_exists in He as (x & Hx & Hf). rewrite (H x Hx) in Hf. discriminate.
Qed.

(** [PUT /users/{id}] keeps emails unique across accounts. *)
Theorem update_user_keeps_emails_unique (db : Db) (uid : Z) (req : UserUpdate) :
  emails_unique db -> emails_unique (snd (update_user db uid req)).
Proof.
  intros Huniq. unfold update_user.
  destruct (get_user_by_id db uid) as [u|] eqn:Hu; [|exact Huniq].
  unfold get_user_by_id in Hu. apply find_some in Hu as [Hin Hid]. apply Z.eqb_eq in Hid.
  match goal with |- context [existsb ?f db] => destruct (existsb f db) eqn:Hex end;
    [exact Huniq|].
  cbn [snd]. set (u' := {| user_id := user_id u |}) in *.
  assert (Hother : forall w, In w db -> user_id w <> uid -> email w <> email u').
  { intros w Hw Hne Heq. rewrite existsb_false_forall in Hex.
    specialize (Hex w Hw). cbn in Hex. apply andb_false_iff in Hex as [H|H].
    - apply negb_false_iff, Z.eqb_eq in H. exact (Hne H).
    - rewrite Heq, String.eqb_refl in H. discriminate. }
  assert (Hid' : user_id u' = uid) by exact Hid.
  intros v w Hv Hw Heq.
  apply In_db_update in Hv as [->|[Hv Hvid]], Hw as [->|[Hw Hwid]].
  - reflexivity.
  - exfalso. apply (Hother w Hw); congruence.
  - exfalso. apply (Hother v Hv); congruence.
  - exact (Huniq v w Hv Hw Heq).
Qed.

(** [PUT /users/{id}] never changes an id, a username, a password hash or
    the active, approved and rejected flags of any row (the store's ids
    being distinct). *)
Theorem update_user_keeps_credentials (db : Db) (uid : Z) (req : UserUpdate) :
  NoDup (map user_id db) ->
  map (fun v => (user_id v, username v, hashed_password v, is_active v, is_approved v,
                 is_rejected v)) (snd (update_user db uid req)) =
  map (fun v => (user_id v, username v, hashed_password v, is_active v, is_approved v,
                 is_rejected v)) db.
Proof.
  intros Hnd. unfold update_user.
  destruct (get_user_by_id db uid) as [u|] eqn:Hu; [|reflexivity].
  unfold get_user_by_id in Hu. apply find_some in Hu as [Hin Hid]. apply Z.eqb_eq in Hid.
  match goal with |- context [existsb ?f db] => destruct (existsb f db) end; [reflexivity|].
  cbn [snd]. unfold db_update. rewrite map_map. apply map_ext_in.
  intros v Hv. cbn [user_id]. destruct (Z.eqb_spec (user_id v) (user_id u)) as [E|E];
    [|reflexivity].
  rewrite (NoDup_map_inj user_id db v u Hnd Hv Hin E). reflexivity.
Qed.


(** ** Concrete instances of the theorems with hypotheses *)

(** A refresh token presented to an admin endpoint is refused with 401; an
    admin's access token is admitted by [require_role(ADMIN, SUPER_ADMIN)]. *)
Lemma access_guard_decisions_witness :
  role_guard DEFAULT_SECRET_KEY ADMIN_ROLES
    (create_refresh_token DEFAULT_SECRET_KEY (payload_of_user alice TEACHER) 100) 200 =
    HTTPError HTTP_401_UNAUTHORIZED "Invalid token type" /\
  exists cu,
    role_guard DEFAULT_SECRET_KEY ADMIN_ROLES
      (create_access_token DEFAULT_SECRET_KEY (payload_of_user dana ADMIN) 100) 200 = Ok cu.
Proof.
  split.
  - destruct (access_guard_decisions DEFAULT_SECRET_KEY ADMIN_ROLES
                (create_refresh_token DEFAULT_SECRET_KEY (payload_of_user alice TEACHER) 100)
                200) as [H _].
    refine (proj2 (H _ eq_refl _)). discriminate.
  - destruct (access_guard_decisions DEFAULT_SECRET_KEY ADMIN_ROLES
                (create_access_token DEFAULT_SECRET_KEY (payload_of_user dana ADMIN) 100)
                200) as [_ H].
    eexists. apply (proj1 (proj2 (proj2 (H _ eq_refl))) ADMIN).
    + left; reflexivity.
    + reflexivity.
Defined.

(** The spec's scenario: [bob]'s ticket expires at 100; a reset at 101 is
    refused with the expiry message. *)
Lemma reset_password_contract_witness :
  fst (reset_password demo_hash [alice; bob] "tkt" NEW_PASSWORD 101 "s2") =
  HTTPError HTTP_400_BAD_REQUEST msg_reset_expired.
Proof.
  destruct (reset_password_contract demo_hash [alice; bob] "tkt" NEW_PASSWORD 101 "s2"
              eq_refl) as [_ [_ [H _]]].
  apply (H bob); [reflexivity|]. right. exists 100. split; [reflexivity | lia].
Defined.

(** The refused reset of [bob] at 101 leaves the store, ticket included,
    as it was. *)
Lemma reset_password_failure_keeps_store_witness :
  snd (reset_password demo_hash [alice; bob] "tkt" NEW_PASSWORD 101 "s2") = [alice; bob].
Proof.
  exact (proj1 (reset_password_failure_keeps_store demo_hash [alice; bob] "tkt"
                  NEW_PASSWORD 101 "s2" HTTP_400_BAD_REQUEST msg_reset_expired eq_refl)).
Defined.

(** ** Concrete instances of the further properties *)

(** Four bytes, [0x00 0x80 0xff 0x07], survive the profile image round trip. *)
Lemma profile_image_round_trip_witness :
  exists s, users_encode_profile_image (Some [0; 128; 255; 7]) = Some s /\
    users_decode_profile_image s = inl [0; 128; 255; 7].
Proof.
  destruct (profile_image_round_trip [0; 128; 255; 7]
              ltac:(repeat constructor; lia)) as (s & Hs & Hd & _).
  exists s. split; [exact Hs | exact Hd].
Defined.

(** [alice]'s access token issued at 100: admitted at 200, expired at 1900,
    not yet valid at 50. *)
Lemma access_token_lifetime_witness :
  (exists claims, get_current_user DEFAULT_SECRET_KEY
     (create_access_token DEFAULT_SECRET_KEY (payload_of_user alice TEACHER) 100) 200 = Ok claims) /\
  get_current_user DEFAULT_SECRET_KEY
    (create_access_token DEFAULT_SECRET_KEY (payload_of_user alice TEACHER) 100) 1900 =
    HTTPError HTTP_401_UNAUTHORIZED "Token has expired" /\
  get_current_user DEFAULT_SECRET_KEY
    (create_access_token DEFAULT_SECRET_KEY (payload_of_user alice TEACHER) 100) 50 =
    HTTPError HTTP_401_UNAUTHORIZED "Invalid token".
Proof.
  destruct (access_token_lifetime DEFAULT_SECRET_KEY (payload_of_user alice TEACHER) 100 200)
    as [H1 _].
  destruct (access_token_lifetime DEFAULT_SECRET_KEY (payload_of_user alice TEACHER) 100 1900)
    as [_ [H2 _]].
  destruct (access_token_lifetime DEFAULT_SECRET_KEY (payload_of_user alice TEACHER) 100 50)
    as [_ [_ H3]].
  unfold ACCESS_TOKEN_EXPIRE_MINUTES in *.
  split; [|split; [apply H2; lia | apply H3; lia]].
  destruct (H1 ltac:(lia)) as (c & Hc & _). exists c. exact Hc.
Defined.

(** [alice]'s refresh token issued at 100: accepted a day later, expired
    after eight days, not yet valid at 50. *)
Lemma refresh_token_lifetime_witness :
  (exists claims, verify_token DEFAULT_SECRET_KEY
     (create_refresh_token DEFAULT_SECRET_KEY (payload_of_user alice TEACHER) 100) 86500 =
     inl claims) /\
  verify_token DEFAULT_SECRET_KEY
    (create_refresh_token DEFAULT_SECRET_KEY (payload_of_user alice TEACHER) 100) 691300 =
    inr ExpiredSignatureError /\
  verify_token DEFAULT_SECRET_KEY
    (create_refresh_token DEFAULT_SECRET_KEY (payload_of_user alice TEACHER) 100) 50 =
    inr InvalidTokenError.
Proof.
  destruct (refresh_token_lifetime DEFAULT_SECRET_KEY (payload_of_user alice TEACHER) 100 86500)
    as [H1 _].
  destruct (refresh_token_lifetime DEFAULT_SECRET_KEY (payload_of_user alice TEACHER) 100 691300)
    as [_ [H2 _]].
  destruct (refresh_token_lifetime DEFAULT_SECRET_KEY (payload_of_user alice TEACHER) 100 50)
    as [_ [_ H3]].
  unfold REFRESH_TOKEN_EXPIRE_DAYS in *.
  split; [|split; [apply H2; lia | apply H3; lia]].
  destruct (H1 ltac:(lia)) as (c & Hc & _). exists c. exact Hc.
Defined.

(** Claims naming [alice] but signed with another key are refused. *)
Lemma foreign_tokens_rejected_witness :
  get_current_user DEFAULT_SECRET_KEY
    (Signed [("user_id", PInt 1); ("type", PStr "access")] "attacker-key") 200 =
    HTTPError HTTP_401_UNAUTHORIZED "Invalid token" /\
  refresh_token DEFAULT_SECRET_KEY [alice; bob]
    (Signed [("user_id", PInt 1); ("type", PStr "refresh")] "attacker-key") 200 =
    HTTPError HTTP_401_UNAUTHORIZED msg_refresh_failed.
Proof.
  destruct (foreign_tokens_rejected DEFAULT_SECRET_KEY "attacker-key"
              [("user_id", PInt 1); ("type", PStr "refresh")] "x" [alice; bob] 200
              ltac:(discriminate)) as (_ & _ & H & _).
  destruct (foreign_tokens_rejected DEFAULT_SECRET_KEY "attacker-key"
              [("user_id", PInt 1); ("type", PStr "access")] "x" [alice; bob] 200
              ltac:(discriminate)) as (H' & _).
  split; [exact H' | exact H].
Defined.

(** Deactivating and rejecting every row changes nothing about [alice]'s
    login. *)
Lemma login_ignores_account_status_witness :
  login DEFAULT_SECRET_KEY demo_verify
    (map (fun u => mkUser (user_id u) (email u) (username u) (hashed_password u)
                     (first_name u) (last_name u) (desired_name u) (phone u) false (role u)
                     false None PNone None true (Some 5) (PInt 4) (Some "spam")
                     (registered_date u) None None None) [alice; bob])
    (Some "a@x.com") None "Sup3r$ecretPass!" 100 =
  match login DEFAULT_SECRET_KEY demo_verify [alice; bob]
          (Some "a@x.com") None "Sup3r$ecretPass!" 100 with
  | Ok (tok, u) => Ok (tok, mkUser (user_id u) (email u) (username u) (hashed_password u)
                     (first_name u) (last_name u) (desired_name u) (phone u) false (role u)
                     false None PNone None true (Some 5) (PInt 4) (Some "spam")
                     (registered_date u) None None None)
  | HTTPError c d => HTTPError c d
  end.
Proof.
  apply login_ignores_account_status. intros u. cbn. repeat split.
Defined.

(** [alice] (a teacher) logs in at 100; at 200 her token passes
    [require_role(TEACHER)]. *)
Lemma login_token_admits_witness :
  exists tok u, login DEFAULT_SECRET_KEY demo_verify [alice; bob]
                  (Some "a@x.com") None "Sup3r$ecretPass!" 100 = Ok (tok, u) /\
    exists cu, role_guard DEFAULT_SECRET_KEY [TEACHER] tok 200 = Ok cu.
Proof.
  assert (Hl : login DEFAULT_SECRET_KEY demo_verify [alice; bob]
                 (Some "a@x.com") None "Sup3r$ecretPass!" 100 =
               Ok (create_access_token DEFAULT_SECRET_KEY (payload_of_user alice TEACHER) 100,
                   alice)) by reflexivity.
  exists (create_access_token DEFAULT_SECRET_KEY (payload_of_user alice TEACHER) 100), alice.
  split; [exact Hl|].
  destruct (login_token_admits DEFAULT_SECRET_KEY demo_verify [alice; bob]
              (Some "a@x.com") None "Sup3r$ecretPass!" 100 _ alice 200 Hl
              ltac:(unfold ACCESS_TOKEN_EXPIRE_MINUTES; lia)) as (c & _ & _ & _ & _ & Hall).
  apply (Hall [TEACHER]). right. left. reflexivity.
Defined.

(** A password change through [PUT /auth/admin/educators/2] leaves every
    hash of the store as it was. *)
Lemma update_educator_keeps_passwords_witness :
  map hashed_password
    (snd (update_educator [alice; bob; dana] 2
            (mkUpdateEducatorRequest None None None None None None (Some "Fresh$ecret123") None))) =
  map hashed_password [alice; bob; dana].
Proof.
  apply update_educator_keeps_passwords.
  cbn. repeat (constructor; [cbn; lia|]). constructor.
Defined.


(** [bob]'s ticket [tkt] resets his password at 90; replaying it at 95 is
    refused. *)
Lemma reset_ticket_single_use_witness :
  reset_password demo_hash (snd (reset_password demo_hash [alice; bob] "tkt" NEW_PASSWORD 90 "s2"))
    "tkt" "An0ther$ecretPass" 95 "s1" =
  (HTTPError HTTP_400_BAD_REQUEST msg_reset_invalid,
   snd (reset_password demo_hash [alice; bob] "tkt" NEW_PASSWORD 90 "s2")).
Proof.
  apply (reset_ticket_single_use demo_hash [alice; bob] "tkt" NEW_PASSWORD "An0ther$ecretPass"
           90 95 "s2" "s1"
           (mkResetPasswordResponse
              "Your password has been successfully reset. You can now login with your new password."
              "b@x.com")).
  - intros v w [<-|[<-|[]]] [<-|[<-|[]]]; cbn; congruence.
  - reflexivity.
  - reflexivity.
Defined.


(** Approving or rejecting [bob] (id 2) takes him off the pending list. *)
Lemma approve_reject_leave_pending_list_witness :
  (forall v, In v (snd (get_pending_users (snd (approve_user [alice; bob] 2 None "teacher" [] 300)))) ->
     user_id v <> 2) /\
  (forall v, In v (snd (get_pending_users (snd (reject_user [alice; bob] 2 "dup" [] 300)))) ->
     user_id v <> 2).
Proof.
  destruct (approve_reject_leave_pending_list [alice; bob] 2 None "teacher" "dup" [] 300)
    as [H1 H2].
  split; [apply H1 | apply H2]; eexists; reflexivity.
Defined.

(** [bob] approved as paraeducator at 300 is listed among the educators and
    among the recent approvals at 400. *)
Lemma approve_user_listings_witness :
  exists u', fst (approve_user [alice; bob] 2 None "paraeducator" [] 300) = Ok u' /\
    In u' (snd (get_educators (snd (approve_user [alice; bob] 2 None "paraeducator" [] 300)))) /\
    In u' (snd (get_approved_users_recent
                  (snd (approve_user [alice; bob] 2 None "paraeducator" [] 300)) 400)).
Proof.
  eexists. split; [reflexivity|].
  destruct (approve_user_listings [alice; bob] 2 None "paraeducator" [] 300 400 _ eq_refl)
    as [He Hr].
  split; [apply He; right; reflexivity | apply Hr; lia].
Defined.

(** Changing [bob]'s email to a fresh one keeps the store's emails unique. *)
Lemma update_user_keeps_emails_unique_witness :
  emails_unique (snd (update_user [alice; bob] 2
                        (mkUserUpdate (Some "bob@x.com") None None None None None))).
Proof.
  apply update_user_keeps_emails_unique.
  intros v w [<-|[<-|[]]] [<-|[<-|[]]]; cbn; congruence.
Defined.

(** An update of [bob] leaves every row's credentials and status as they
    were. *)
Lemma update_user_keeps_credentials_witness :
  map (fun v => (user_id v, username v, hashed_password v, is_active v, is_approved v,
                 is_rejected v))
    (snd (update_user [alice; bob] 2
            (mkUserUpdate (Some "bob@x.com") None None (Some "admin") None None))) =
  map (fun v => (user_id v, username v, hashed_password v, is_active v, is_approved v,
                 is_rejected v)) [alice; bob].
Proof.
  apply update_user_keeps_credentials.
  cbn. repeat (constructor; [cbn; lia|]). constructor.
Defined.

